(** * pdn-webp: the native WebP bridge (WebP/WebP.cpp, WebP/WebP.h)

    A shallow embedding of [WebPLoad], [WebPSave], [GetMetaDataSize],
    [ExtractMetaData] and [SetMetaData] and of the static helper
    [HasTransparency].  The codec library (libwebp: decode, encode, mux,
    demux) and the C runtime are outside the repository; the library
    appears here as an explicit environment (record [Codec]) whose answers
    the bridge reacts to, and every call the bridge makes into it is
    written to a log, in program order. *)

From Stdlib Require Import ZArith List Bool Lia String.
From Stdlib Require Import Floats.SpecFloat.
Import ListNotations.
Local Open Scope Z_scope.

(** ** Machine integers and memory *)

Module CInt.

Definition INT_MIN : Z := - 2 ^ 31.
Definition INT_MAX : Z := 2 ^ 31 - 1.

(** The value a 32-bit two's complement register holds for [z]. *)
Definition wrap (z : Z) : Z := (z + 2 ^ 31) mod 2 ^ 32 - 2 ^ 31.

(** [static_cast<uint32_t>] of a [size_t]. *)
Definition to_uint32 (z : Z) : Z := z mod 2 ^ 32.

Definition in_range (z : Z) : Prop := INT_MIN <= z <= INT_MAX.

End CInt.

(** An address is an integer, [nullptr] is address 0, and memory maps each
    address to the byte stored there. *)
Definition addr := Z.
Definition nullptr : addr := 0.
Definition memory := addr -> Z.

(** ** [HasTransparency] (WebP.cpp, lines 31-48) *)

(** The inner loop: [n] pixels remain in the row, [ptr] points at the
    current one. *)
Fixpoint scan_row (m : memory) (ptr : addr) (n : nat) : bool :=
  match n with
  | O => false
  | S n' => if m (ptr + 3) <? 255 then true else scan_row m (ptr + 4) n'
  end.

(** The outer loop: [n] rows remain, [y] is the current row.  The product
    [y * stride] is computed in [int]. *)
Fixpoint scan_rows (m : memory) (scan0 : addr) (width stride : Z)
         (y : Z) (n : nat) : bool :=
  match n with
  | O => false
  | S n' =>
      let ptr := scan0 + CInt.wrap (y * stride) in
      if scan_row m ptr (Z.to_nat width) then true
      else scan_rows m scan0 width stride (y + 1) n'
  end.

Definition HasTransparency (m : memory) (data : addr)
           (width height stride : Z) : bool :=
  scan_rows m data width stride 0 (Z.to_nat height).

(** The addresses of the alpha bytes of the [width] by [height] region, in
    row-major order. *)
Definition zrange (n : Z) : list Z := map Z.of_nat (seq 0 (Z.to_nat n)).

Definition alpha_addr (data : addr) (stride x y : Z) : addr :=
  data + y * stride + 4 * x + 3.

Definition alpha_addresses (data : addr) (width height stride : Z) : list addr :=
  flat_map (fun y => map (fun x => alpha_addr data stride x y) (zrange width))
           (zrange height).

Definition transparent (m : memory) (a : addr) : bool := m a <? 255.

(** ** Constants of the wrapped libraries and of WebP.h

    The enumerations below are those of libwebp's public headers
    (encode.h, decode.h, mux.h, mux_types.h), which WebP.h includes; the
    last two groups are the bridge's own (WebP.h). *)

Module K.

(** [WebPPreset] (encode.h). *)
Definition WEBP_PRESET_DEFAULT : Z := 0.
Definition WEBP_PRESET_PICTURE : Z := 1.
Definition WEBP_PRESET_PHOTO : Z := 2.
Definition WEBP_PRESET_DRAWING : Z := 3.
Definition WEBP_PRESET_ICON : Z := 4.
Definition WEBP_PRESET_TEXT : Z := 5.

(** [WebPImageHint] (encode.h). *)
Definition WEBP_HINT_DEFAULT : Z := 0.
Definition WEBP_HINT_PICTURE : Z := 1.
Definition WEBP_HINT_PHOTO : Z := 2.
Definition WEBP_HINT_GRAPH : Z := 3.

(** [WebPEncodingError] (encode.h). *)
Definition VP8_ENC_OK : Z := 0.
Definition VP8_ENC_ERROR_OUT_OF_MEMORY : Z := 1.
Definition VP8_ENC_ERROR_NULL_PARAMETER : Z := 3.

(** [VP8StatusCode] and [WEBP_CSP_MODE] (decode.h). *)
Definition VP8_STATUS_OK : Z := 0.
Definition MODE_BGRA : Z := 3.

(** [WebPMuxError] (mux.h). *)
Definition WEBP_MUX_OK : Z := 1.
Definition WEBP_MUX_INVALID_ARGUMENT : Z := -1.
Definition WEBP_MUX_BAD_DATA : Z := -2.
Definition WEBP_MUX_MEMORY_ERROR : Z := -3.

(** [WebPFeatureFlags] (mux_types.h). *)
Definition XMP_FLAG : Z := 4.
Definition EXIF_FLAG : Z := 8.
Definition ICCP_FLAG : Z := 32.

(** [errno] values the C runtime's checked copy returns. *)
Definition EINVAL : Z := 22.
Definition ERANGE : Z := 34.

(** WebP.h, line 76. *)
Definition errVersionMismatch : Z := -1.

(** WebP.h, lines 40-45: the metadata kind enumeration. *)
Definition ColorProfile : Z := 0.
Definition EXIF : Z := 1.
Definition XMP : Z := 2.

(** The [float] 100 in binary32: 13107200 * 2^-17. *)
Definition float_100 : spec_float := S754_finite false 13107200 (-17).

End K.

(** ** Data passed across the boundary *)

(** The fields of [EncodeParams] that WebP.cpp reads; [quality] is a
    binary32 [float], the others are [int]. *)
Record EncodeParams := {
  quality : spec_float;
  preset : Z;
  method : Z;
  fileSize : Z;
  filterStrength : Z;
  filterType : Z;
  sharpness : Z;
  noiseShaping : Z
}.

Record MetaDataParams := {
  iccProfile : addr;
  iccProfileSize : Z;
  exif : addr;
  exifSize : Z;
  xmp : addr;
  xmpSize : Z
}.

(** [WebPData]: a pointer and a byte count. *)
Record WebPData := { bytes : addr; size : Z }.

(** The fields of [WebPConfig] the bridge assigns. *)
Record WebPConfig := {
  cfg_method : Z;
  thread_level : Z;
  lossless : Z;
  image_hint : Z;
  target_size : Z;
  filter_strength : Z;
  filter_type : Z;
  filter_sharpness : Z;
  sns_strength : Z
}.

Inductive WriterFn := WebPMemoryWrite.
Inductive HookFn := progressFunc.

(** The fields of [WebPPicture] the bridge assigns or reads.  [custom_ptr]
    is true once it points at the call's memory writer; [user_data] holds
    the host's progress callback. *)
Record WebPPicture := {
  use_argb : Z;
  pic_width : Z;
  pic_height : Z;
  writer : option WriterFn;
  custom_ptr : bool;
  user_data : addr;
  progress_hook : option HookFn
}.

(** The output descriptor inside [WebPDecoderConfig]. *)
Record WebPDecBuffer := {
  colorspace : Z;
  is_external_memory : Z;
  rgba : addr;
  rgba_size : Z;
  rgba_stride : Z
}.

(** [WebPChunkIterator], reduced to the chunk it designates;
    [memset(&iter, 0, ...)] yields [iter_zero]. *)
Record WebPChunkIterator := { chunk : WebPData }.

Definition iter_zero : WebPChunkIterator :=
  {| chunk := {| bytes := nullptr; size := 0 |} |}.

(** An open demultiplexer: the container's feature flags and its chunks by
    four-character code and 1-based index. *)
Record WebPDemuxer := {
  format_flags : Z;
  find_chunk : string -> Z -> option WebPData
}.

Definition is_some {A} (o : option A) : bool :=
  match o with Some _ => true | None => false end.

(** The host's allocator callback; a null function pointer is [None]. *)
Definition OutputBufferAllocFn := Z -> addr.

(** Field assignments. *)
Definition set_method (v : Z) (c : WebPConfig) : WebPConfig :=
  {| cfg_method := v; thread_level := thread_level c; lossless := lossless c;
     image_hint := image_hint c; target_size := target_size c;
     filter_strength := filter_strength c; filter_type := filter_type c;
     filter_sharpness := filter_sharpness c; sns_strength := sns_strength c |}.

Definition set_thread_level (v : Z) (c : WebPConfig) : WebPConfig :=
  {| cfg_method := cfg_method c; thread_level := v; lossless := lossless c;
     image_hint := image_hint c; target_size := target_size c;
     filter_strength := filter_strength c; filter_type := filter_type c;
     filter_sharpness := filter_sharpness c; sns_strength := sns_strength c |}.

Definition set_lossless (v : Z) (c : WebPConfig) : WebPConfig :=
  {| cfg_method := cfg_method c; thread_level := thread_level c; lossless := v;
     image_hint := image_hint c; target_size := target_size c;
     filter_strength := filter_strength c; filter_type := filter_type c;
     filter_sharpness := filter_sharpness c; sns_strength := sns_strength c |}.

Definition set_image_hint (v : Z) (c : WebPConfig) : WebPConfig :=
  {| cfg_method := cfg_method c; thread_level := thread_level c;
     lossless := lossless c; image_hint := v; target_size := target_size c;
     filter_strength := filter_strength c; filter_type := filter_type c;
     filter_sharpness := filter_sharpness c; sns_strength := sns_strength c |}.

Definition set_target_size (v : Z) (c : WebPConfig) : WebPConfig :=
  {| cfg_method := cfg_method c; thread_level := thread_level c;
     lossless := lossless c; image_hint := image_hint c; target_size := v;
     filter_strength := filter_strength c; filter_type := filter_type c;
     filter_sharpness := filter_sharpness c; sns_strength := sns_strength c |}.

Definition set_filter_strength (v : Z) (c : WebPConfig) : WebPConfig :=
  {| cfg_method := cfg_method c; thread_level := thread_level c;
     lossless := lossless c; image_hint := image_hint c;
     target_size := target_size c; filter_strength := v;
     filter_type := filter_type c; filter_sharpness := filter_sharpness c;
     sns_strength := sns_strength c |}.

Definition set_filter_type (v : Z) (c : WebPConfig) : WebPConfig :=
  {| cfg_method := cfg_method c; thread_level := thread_level c;
     lossless := lossless c; image_hint := image_hint c;
     target_size := target_size c; filter_strength := filter_strength c;
     filter_type := v; filter_sharpness := filter_sharpness c;
     sns_strength := sns_strength c |}.

Definition set_filter_sharpness (v : Z) (c : WebPConfig) : WebPConfig :=
  {| cfg_method := cfg_method c; thread_level := thread_level c;
     lossless := lossless c; image_hint := image_hint c;
     target_size := target_size c; filter_strength := filter_strength c;
     filter_type := filter_type c; filter_sharpness := v;
     sns_strength := sns_strength c |}.

Definition set_sns_strength (v : Z) (c : WebPConfig) : WebPConfig :=
  {| cfg_method := cfg_method c; thread_level := thread_level c;
     lossless := lossless c; image_hint := image_hint c;
     target_size := target_size c; filter_strength := filter_strength c;
     filter_type := filter_type c; filter_sharpness := filter_sharpness c;
     sns_strength := v |}.

Definition set_use_argb (v : Z) (p : WebPPicture) : WebPPicture :=
  {| use_argb := v; pic_width := pic_width p; pic_height := pic_height p;
     writer := writer p; custom_ptr := custom_ptr p; user_data := user_data p;
     progress_hook := progress_hook p |}.

Definition set_dimensions (w h : Z) (p : WebPPicture) : WebPPicture :=
  {| use_argb := use_argb p; pic_width := w; pic_height := h;
     writer := writer p; custom_ptr := custom_ptr p; user_data := user_data p;
     progress_hook := progress_hook p |}.

Definition set_writer (f : WriterFn) (p : WebPPicture) : WebPPicture :=
  {| use_argb := use_argb p; pic_width := pic_width p;
     pic_height := pic_height p; writer := Some f; custom_ptr := true;
     user_data := user_data p; progress_hook := progress_hook p |}.

Definition set_progress (callback : addr) (f : HookFn) (p : WebPPicture)
  : WebPPicture :=
  {| use_argb := use_argb p; pic_width := pic_width p;
     pic_height := pic_height p; writer := writer p;
     custom_ptr := custom_ptr p; user_data := callback;
     progress_hook := Some f |}.

(** ** The environment of a call *)

(** What [WebPEncode] leaves behind: on success the memory writer holds
    [wrt_size] bytes at [wrt_mem] (in the memory [after]); on failure the
    picture's [error_code] is set. *)
Inductive EncodeResult :=
| EncodeOk (after : memory) (wrt_mem : addr) (wrt_size : Z)
| EncodeFail (error_code : Z).

(** The answers of the codec library during one call of the bridge.  A
    function that returns a C boolean is a [bool] or an [option]; a handle
    is an address, null on failure. *)
Record Codec := {
  WebPInitDecoderConfig : bool;
  WebPDecode : addr -> Z -> WebPDecBuffer -> memory -> Z * memory;
  WebPConfigPreset : Z -> spec_float -> option WebPConfig;
  WebPPictureInit : option WebPPicture;
  WebPPictureImportBGRA : WebPPicture -> addr -> Z -> memory -> bool;
  WebPPictureImportBGRX : WebPPicture -> addr -> Z -> memory -> bool;
  WebPEncode : WebPConfig -> WebPPicture -> memory -> EncodeResult;
  WebPDemux : WebPData -> memory -> option WebPDemuxer;
  WebPMuxNew : addr;
  WebPMuxSetImage : addr -> WebPData -> Z -> Z;
  WebPMuxSetChunk : addr -> string -> WebPData -> Z -> Z;
  WebPMuxAssemble : addr -> memory -> Z * WebPData * memory
}.

(** ** The log of a call *)

Inductive Event :=
| EvWebPInitDecoderConfig (ok : bool)
| EvWebPDecode (status : Z)
| EvWebPConfigPreset (ok : bool)
| EvWebPPictureInit (ok : bool)
| EvWebPMemoryWriterInit
| EvWebPPictureImportBGRA (ok : bool)
| EvWebPPictureImportBGRX (ok : bool)
| EvWebPEncode (ok : bool)
| EvWebPMemoryWriterClear
| EvWebPPictureFree
| EvWebPDemux (ok : bool)
| EvWebPDemuxGetI
| EvWebPDemuxGetChunk (fourcc : string) (found : bool)
| EvWebPDemuxReleaseChunkIterator
| EvWebPDemuxDelete
| EvWebPMuxNew (mux : addr)
| EvWebPMuxSetImage (err : Z)
| EvWebPMuxSetChunk (fourcc : string) (err : Z)
| EvWebPMuxAssemble (err : Z)
| EvWebPMuxDelete (mux : addr)
| EvWebPDataClear
| EvOutputAllocator (sizeInBytes : Z) (result : addr)
| Ev_memcpy_s (dest : addr) (destSize : Z) (src : addr) (count : Z)
| EvInvalidParameter
| StoreOut (v : Z).

(** The codec-internal resources a call holds. *)
Inductive Resource := MemoryWriter | Picture | Mux.

Definition acquires (r : Resource) (e : Event) : bool :=
  match r, e with
  | MemoryWriter, EvWebPMemoryWriterInit => true
  | Picture, EvWebPPictureInit ok => ok
  | Mux, EvWebPMuxNew mux => negb (mux =? nullptr)
  | _, _ => false
  end.

Definition releases (r : Resource) (e : Event) : bool :=
  match r, e with
  | MemoryWriter, EvWebPMemoryWriterClear => true
  | Picture, EvWebPPictureFree => true
  | Mux, EvWebPMuxDelete _ => true
  | _, _ => false
  end.

(** Whether [r] is still held once the events of [l] have happened. *)
Definition held (r : Resource) (l : list Event) : bool :=
  fold_left (fun h e => if acquires r e then true
                        else if releases r e then false else h) l false.

Definition is_encode_ok (e : Event) : bool :=
  match e with EvWebPEncode true => true | _ => false end.

Definition is_store (e : Event) : bool :=
  match e with StoreOut _ => true | _ => false end.

(** ** State and the monad of a call *)

(** The memory, the caller's out-parameter cell ([*output], [*outImage] or
    [*outSize]) and the log so far, oldest event first. *)
Record State := { mem : memory; out : Z; log : list Event }.

Definition initial (m : memory) (o : Z) : State :=
  {| mem := m; out := o; log := [] |}.

Definition M (A : Type) : Type := State -> A * State.

Definition ret {A} (a : A) : M A := fun s => (a, s).

Definition bind {A B} (c : M A) (k : A -> M B) : M B :=
  fun s => let (a, s') := c s in k a s'.

Declare Scope bridge_scope.
Delimit Scope bridge_scope with bridge.
Notation "x <- c ;; k" := (bind c (fun x => k))
  (at level 61, c at next level, right associativity) : bridge_scope.
Notation "c ;; k" := (bind c (fun _ => k))
  (at level 61, right associativity) : bridge_scope.
Local Open Scope bridge_scope.

Definition emit (e : Event) : M unit :=
  fun s => (tt, {| mem := mem s; out := out s; log := log s ++ [e] |}).

Definition get_mem : M memory := fun s => (mem s, s).

Definition put_mem (m : memory) : M unit :=
  fun s => (tt, {| mem := m; out := out s; log := log s |}).

Definition load_out : M Z := fun s => (out s, s).

(** An assignment through the out-parameter. *)
Definition store_out (v : Z) : M unit :=
  fun s => (tt, {| mem := mem s; out := v; log := log s ++ [StoreOut v] |}).

(** ** The C runtime's checked copy

    [memcpy_s] as the Microsoft C runtime documents and implements it: a
    zero count does nothing; a null destination, a null source or a
    destination smaller than the count is reported to the invalid parameter
    handler, and in the last two cases the destination is filled with zeros
    first; otherwise [count] bytes are copied.  [EvInvalidParameter] marks
    the invocation of the handler; the model goes on as the runtime does
    when the handler returns, with [EINVAL] or [ERANGE] as the result. *)

Definition in_block (base len a : Z) : bool := (base <=? a) && (a <? base + len).

Definition copy_bytes (m : memory) (dest src count : Z) : memory :=
  fun a => if in_block dest count a then m (src + (a - dest)) else m a.

Definition zero_bytes (m : memory) (dest len : Z) : memory :=
  fun a => if in_block dest len a then 0 else m a.

Definition memcpy_s (dest : addr) (destSize : Z) (src : addr) (count : Z)
  : M Z :=
  emit (Ev_memcpy_s dest destSize src count) ;;
  if count =? 0 then ret 0
  else if dest =? nullptr then emit EvInvalidParameter ;; ret K.EINVAL
  else if (src =? nullptr) || (destSize <? count) then
    m <- get_mem ;;
    put_mem (zero_bytes m dest destSize) ;;
    emit EvInvalidParameter ;;
    ret (if src =? nullptr then K.EINVAL else K.ERANGE)
  else
    m <- get_mem ;;
    put_mem (copy_bytes m dest src count) ;;
    ret 0.

(** ** The entry points *)

Section Bridge.

Variable lib : Codec.

(** Calls into the library: each asks the environment and logs itself. *)

Definition call_WebPInitDecoderConfig : M bool :=
  let ok := WebPInitDecoderConfig lib in
  emit (EvWebPInitDecoderConfig ok) ;; ret ok.

Definition call_WebPDecode (data : addr) (dataSize : Z)
           (output_buffer : WebPDecBuffer) : M Z :=
  m <- get_mem ;;
  let (status, m') := WebPDecode lib data dataSize output_buffer m in
  put_mem m' ;; emit (EvWebPDecode status) ;; ret status.

Definition call_WebPConfigPreset (p : Z) (q : spec_float)
  : M (option WebPConfig) :=
  let r := WebPConfigPreset lib p q in
  emit (EvWebPConfigPreset (is_some r)) ;; ret r.

Definition call_WebPPictureInit : M (option WebPPicture) :=
  let r := WebPPictureInit lib in
  emit (EvWebPPictureInit (is_some r)) ;; ret r.

Definition call_WebPPictureImportBGRA (pic : WebPPicture) (bitmap : addr)
           (stride : Z) : M bool :=
  m <- get_mem ;;
  let ok := WebPPictureImportBGRA lib pic bitmap stride m in
  emit (EvWebPPictureImportBGRA ok) ;; ret ok.

Definition call_WebPPictureImportBGRX (pic : WebPPicture) (bitmap : addr)
           (stride : Z) : M bool :=
  m <- get_mem ;;
  let ok := WebPPictureImportBGRX lib pic bitmap stride m in
  emit (EvWebPPictureImportBGRX ok) ;; ret ok.

Definition call_WebPEncode (config : WebPConfig) (pic : WebPPicture)
  : M EncodeResult :=
  m <- get_mem ;;
  let r := WebPEncode lib config pic m in
  match r with
  | EncodeOk m' _ _ => put_mem m' ;; emit (EvWebPEncode true) ;; ret r
  | EncodeFail _ => emit (EvWebPEncode false) ;; ret r
  end.

Definition call_allocator (outputAllocator : OutputBufferAllocFn)
           (sizeInBytes : Z) : M addr :=
  let p := outputAllocator sizeInBytes in
  emit (EvOutputAllocator sizeInBytes p) ;; ret p.

Definition call_WebPDemux (webpData : WebPData) : M (option WebPDemuxer) :=
  m <- get_mem ;;
  let r := WebPDemux lib webpData m in
  emit (EvWebPDemux (is_some r)) ;; ret r.

Definition call_WebPDemuxGetI (demux : WebPDemuxer) : M Z :=
  emit EvWebPDemuxGetI ;; ret (format_flags demux).

(** [WebPDemuxGetChunk] clears the iterator and, when the container has
    the chunk, makes the iterator designate it. *)
Definition call_WebPDemuxGetChunk (demux : WebPDemuxer) (fourcc : string)
           (chunk_num : Z) : M WebPChunkIterator :=
  match find_chunk demux fourcc chunk_num with
  | Some d => emit (EvWebPDemuxGetChunk fourcc true) ;; ret {| chunk := d |}
  | None => emit (EvWebPDemuxGetChunk fourcc false) ;; ret iter_zero
  end.

Definition call_WebPMuxNew : M addr :=
  let mux := WebPMuxNew lib in emit (EvWebPMuxNew mux) ;; ret mux.

Definition call_WebPMuxSetImage (mux : addr) (image : WebPData)
           (copy_data : Z) : M Z :=
  let err := WebPMuxSetImage lib mux image copy_data in
  emit (EvWebPMuxSetImage err) ;; ret err.

Definition call_WebPMuxSetChunk (mux : addr) (fourcc : string)
           (chunk_data : WebPData) (copy_data : Z) : M Z :=
  let err := WebPMuxSetChunk lib mux fourcc chunk_data copy_data in
  emit (EvWebPMuxSetChunk fourcc err) ;; ret err.

Definition call_WebPMuxAssemble (mux : addr) : M (Z * WebPData) :=
  m <- get_mem ;;
  let '(err, assembled, m') := WebPMuxAssemble lib mux m in
  put_mem m' ;; emit (EvWebPMuxAssemble err) ;; ret (err, assembled).

(** *** [WebPLoad] (WebP.cpp, lines 11-29) *)

Definition WebPLoad (data : addr) (dataSize : Z) (outData : addr)
           (outSize : Z) (outStride : Z) : M Z :=
  ok <- call_WebPInitDecoderConfig ;;
  if negb ok then ret K.errVersionMismatch
  else
    let output_buffer :=
      {| colorspace := K.MODE_BGRA; is_external_memory := 1;
         rgba := outData; rgba_size := outSize; rgba_stride := outStride |} in
    call_WebPDecode data dataSize output_buffer.

(** *** [WebPSave] (WebP.cpp, lines 58-169) *)

(** Lines 82-117: the encoder settings taken from [params]. *)
Definition configure (config : WebPConfig) (pic : WebPPicture)
           (params : EncodeParams) : WebPConfig * WebPPicture :=
  let config := set_method (method params) config in
  let config := set_thread_level 1 config in
  if SFeqb (quality params) K.float_100 then
    let config := set_lossless 1 config in
    let pic := set_use_argb 1 pic in
    let config :=
      if preset params =? K.WEBP_PRESET_PHOTO then
        set_image_hint K.WEBP_HINT_PHOTO config
      else if preset params =? K.WEBP_PRESET_PICTURE then
        set_image_hint K.WEBP_HINT_PICTURE config
      else if preset params =? K.WEBP_PRESET_DRAWING then
        set_image_hint K.WEBP_HINT_GRAPH config
      else config in
    (config, pic)
  else
    let config :=
      if fileSize params >? 0 then set_target_size (fileSize params) config
      else config in
    let config :=
      if preset params <? K.WEBP_PRESET_ICON then
        set_filter_strength (filterStrength params) config
      else config in
    let config := set_filter_type (filterType params) config in
    let config := set_filter_sharpness (sharpness params) config in
    let config := set_sns_strength (noiseShaping params) config in
    (config, pic).

(** Lines 142-168: register the progress hook, encode, hand the bytes to
    the host and release the writer and the picture. *)
Definition encode_and_release (outputAllocator : OutputBufferAllocFn)
           (config : WebPConfig) (pic : WebPPicture) (callback : addr)
  : M Z :=
  let pic := if negb (callback =? nullptr)
             then set_progress callback progressFunc pic else pic in
  r <- call_WebPEncode config pic ;;
  error <-
    match r with
    | EncodeOk _ wrt_mem wrt_size =>
        p <- call_allocator outputAllocator wrt_size ;;
        store_out p ;;
        o <- load_out ;;
        if negb (o =? nullptr) then
          memcpy_s o wrt_size wrt_mem wrt_size ;; ret 0
        else ret K.VP8_ENC_ERROR_OUT_OF_MEMORY
    | EncodeFail error_code => ret error_code
    end ;;
  emit EvWebPMemoryWriterClear ;;
  emit EvWebPPictureFree ;;
  ret error.

Definition WebPSave (outputAllocator : option OutputBufferAllocFn)
           (bitmap : addr) (width height stride : Z)
           (params : EncodeParams) (callback : addr) : M Z :=
  match outputAllocator with
  | None => ret K.VP8_ENC_ERROR_NULL_PARAMETER
  | Some alloc =>
      c <- call_WebPConfigPreset (preset params) (quality params) ;;
      match c with
      | None => ret K.errVersionMismatch
      | Some config =>
          p <- call_WebPPictureInit ;;
          match p with
          | None => ret K.errVersionMismatch
          | Some pic =>
              let (config, pic) := configure config pic params in
              let pic := set_dimensions width height pic in
              emit EvWebPMemoryWriterInit ;;
              let pic := set_writer WebPMemoryWrite pic in
              m <- get_mem ;;
              if HasTransparency m bitmap width height stride then
                ok <- call_WebPPictureImportBGRA pic bitmap stride ;;
                if negb ok then ret K.VP8_ENC_ERROR_OUT_OF_MEMORY
                else encode_and_release alloc config pic callback
              else
                ok <- call_WebPPictureImportBGRX pic bitmap stride ;;
                if negb ok then ret K.VP8_ENC_ERROR_OUT_OF_MEMORY
                else encode_and_release alloc config pic callback
          end
      end
  end.

(** *** [GetMetaDataSize] and [ExtractMetaData] (lines 171-258) *)

(** The [switch] on the metadata kind, the same in both functions (lines
    187-207 and 231-251): the chunk is looked up only when its feature
    flag is set; any other kind leaves the cleared iterator as it is. *)
Definition lookup_kind (demux : WebPDemuxer) (flags : Z) (type : Z)
           (iter : WebPChunkIterator) : M WebPChunkIterator :=
  if type =? K.ColorProfile then
    if negb (Z.land flags K.ICCP_FLAG =? 0)
    then call_WebPDemuxGetChunk demux "ICCP" 1 else ret iter
  else if type =? K.EXIF then
    if negb (Z.land flags K.EXIF_FLAG =? 0)
    then call_WebPDemuxGetChunk demux "EXIF" 1 else ret iter
  else if type =? K.XMP then
    if negb (Z.land flags K.XMP_FLAG =? 0)
    then call_WebPDemuxGetChunk demux "XMP " 1 else ret iter
  else ret iter.

Definition GetMetaDataSize (data : addr) (dataSize : Z) (type : Z) : M unit :=
  store_out 0 ;;
  let webpData := {| bytes := data; size := dataSize |} in
  d <- call_WebPDemux webpData ;;
  match d with
  | Some demux =>
      flags <- call_WebPDemuxGetI demux ;;
      iter <- lookup_kind demux flags type iter_zero ;;
      store_out (CInt.to_uint32 (size (chunk iter))) ;;
      emit EvWebPDemuxReleaseChunkIterator ;;
      emit EvWebPDemuxDelete
  | None => ret tt
  end.

Definition ExtractMetaData (data : addr) (dataSize : Z) (outData : addr)
           (outSize : Z) (type : Z) : M unit :=
  let webpData := {| bytes := data; size := dataSize |} in
  d <- call_WebPDemux webpData ;;
  match d with
  | Some demux =>
      flags <- call_WebPDemuxGetI demux ;;
      iter <- lookup_kind demux flags type iter_zero ;;
      memcpy_s outData outSize (bytes (chunk iter)) outSize ;;
      emit EvWebPDemuxReleaseChunkIterator ;;
      emit EvWebPDemuxDelete
  | None => ret tt
  end.

(** *** [SetMetaData] (lines 260-336) *)

Definition SetMetaData (image : addr) (imageSize : Z)
           (outputAllocator : option OutputBufferAllocFn)
           (metaData : MetaDataParams) : M Z :=
  match outputAllocator with
  | None => ret K.WEBP_MUX_INVALID_ARGUMENT
  | Some alloc =>
      mux <- call_WebPMuxNew ;;
      if mux =? nullptr then ret K.WEBP_MUX_MEMORY_ERROR
      else
        let imageData := {| bytes := image; size := imageSize |} in
        error <- call_WebPMuxSetImage mux imageData 0 ;;
        if error =? K.WEBP_MUX_OK then
          error <-
            (if iccProfileSize metaData >? 0 then
               call_WebPMuxSetChunk mux "ICCP"
                 {| bytes := iccProfile metaData;
                    size := iccProfileSize metaData |} 1
             else ret error) ;;
          error <-
            (if (error =? K.WEBP_MUX_OK) && (exifSize metaData >? 0) then
               call_WebPMuxSetChunk mux "EXIF"
                 {| bytes := exif metaData; size := exifSize metaData |} 1
             else ret error) ;;
          error <-
            (if (error =? K.WEBP_MUX_OK) && (xmpSize metaData >? 0) then
               call_WebPMuxSetChunk mux "XMP "
                 {| bytes := xmp metaData; size := xmpSize metaData |} 1
             else ret error) ;;
          if error =? K.WEBP_MUX_OK then
            r <- call_WebPMuxAssemble mux ;;
            let (error, assembledData) := r in
            emit (EvWebPMuxDelete mux) ;;
            if error =? K.WEBP_MUX_OK then
              p <- call_allocator alloc (size assembledData) ;;
              store_out p ;;
              o <- load_out ;;
              let error :=
                if o =? nullptr then K.WEBP_MUX_MEMORY_ERROR else error in
              (if error =? K.WEBP_MUX_OK then
                 memcpy_s o (size assembledData) (bytes assembledData)
                          (size assembledData) ;; ret tt
               else ret tt) ;;
              emit EvWebPDataClear ;;
              ret error
            else ret error
          else ret error
        else ret error
  end.

End Bridge.

(** ** Stating absence of a metadata kind *)

(** The feature flag and four-character code of a metadata kind. *)
Definition kind_chunk (type : Z) : option (Z * string) :=
  if type =? K.ColorProfile then Some (K.ICCP_FLAG, "ICCP"%string)
  else if type =? K.EXIF then Some (K.EXIF_FLAG, "EXIF"%string)
  else if type =? K.XMP then Some (K.XMP_FLAG, "XMP "%string)
  else None.

(** The container did not open, or the kind's flag is clear, or the
    container holds no chunk of that kind. *)
Definition metadata_absent (d : option WebPDemuxer) (type : Z) : bool :=
  match d with
  | None => true
  | Some demux =>
      match kind_chunk type with
      | None => true
      | Some (flag, fourcc) =>
          (Z.land (format_flags demux) flag =? 0)
          || negb (is_some (find_chunk demux fourcc 1))
      end
  end.

(** Every assignment through the out-parameter in [l] comes after a
    successful [WebPEncode]; [seen] tells whether one came before [l]. *)
Fixpoint stores_guarded (seen : bool) (l : list Event) : bool :=
  match l with
  | [] => true
  | e :: l' =>
      if is_store e then seen && stores_guarded seen l'
      else stores_guarded (seen || is_encode_ok e) l'
  end.

(** ** Concrete environments *)

Module Example.

Definition opaque : memory := fun _ => 255.
Definition sevens : memory := fun _ => 7.

(** A 2 by 2 bitmap at address 0 with stride 8 whose bottom-right pixel
    has alpha 128. *)
Definition corner : memory := fun a => if a =? 15 then 128 else 255.

(** The [float] 75 in binary32. *)
Definition float_75 : spec_float := S754_finite false 9830400 (-17).

Definition config_default : WebPConfig :=
  {| cfg_method := 4; thread_level := 0; lossless := 0; image_hint := 0;
     target_size := 0; filter_strength := 60; filter_type := 1;
     filter_sharpness := 0; sns_strength := 50 |}.

(** The icon and text presets switch the filter off. *)
Definition config_sharp : WebPConfig :=
  {| cfg_method := 4; thread_level := 0; lossless := 0; image_hint := 0;
     target_size := 0; filter_strength := 0; filter_type := 1;
     filter_sharpness := 0; sns_strength := 0 |}.

Definition picture_init : WebPPicture :=
  {| use_argb := 0; pic_width := 0; pic_height := 0; writer := None;
     custom_ptr := false; user_data := nullptr; progress_hook := None |}.

Definition params (q : spec_float) (p : Z) : EncodeParams :=
  {| quality := q; preset := p; method := 4; fileSize := 0;
     filterStrength := 35; filterType := 1; sharpness := 0;
     noiseShaping := 50 |}.

Definition no_metadata : MetaDataParams :=
  {| iccProfile := nullptr; iccProfileSize := 0; exif := nullptr;
     exifSize := 0; xmp := nullptr; xmpSize := 0 |}.

Definition exif_only : MetaDataParams :=
  {| iccProfile := nullptr; iccProfileSize := 0; exif := 12288;
     exifSize := 16; xmp := nullptr; xmpSize := 0 |}.

Definition allocator_ok : OutputBufferAllocFn := fun _ => 4096.
Definition allocator_null : OutputBufferAllocFn := fun _ => nullptr.

(** A container with no feature flag and no metadata chunk. *)
Definition bare_container : WebPDemuxer :=
  {| format_flags := 0; find_chunk := fun _ _ => None |}.

Definition codec (import_ok : bool) (enc : EncodeResult)
           (demux : option WebPDemuxer) (set_image set_chunk : Z) : Codec :=
  {| WebPInitDecoderConfig := true;
     WebPDecode := fun _ _ _ m => (K.VP8_STATUS_OK, m);
     WebPConfigPreset := fun p _ =>
       Some (if p <? K.WEBP_PRESET_ICON then config_default else config_sharp);
     WebPPictureInit := Some picture_init;
     WebPPictureImportBGRA := fun _ _ _ _ => import_ok;
     WebPPictureImportBGRX := fun _ _ _ _ => import_ok;
     WebPEncode := fun _ _ _ => enc;
     WebPDemux := fun _ _ => demux;
     WebPMuxNew := 512;
     WebPMuxSetImage := fun _ _ _ => set_image;
     WebPMuxSetChunk := fun _ _ _ _ => set_chunk;
     WebPMuxAssemble := fun _ m =>
       (K.WEBP_MUX_OK, {| bytes := 8192; size := 64 |}, m) |}.

(** Everything succeeds: 64 encoded bytes at address 8192. *)
Definition healthy : Codec :=
  codec true (EncodeOk opaque 8192 64) (Some bare_container)
        K.WEBP_MUX_OK K.WEBP_MUX_OK.

(** The picture import runs out of memory. *)
Definition import_fails : Codec :=
  codec false (EncodeOk opaque 8192 64) None K.WEBP_MUX_OK K.WEBP_MUX_OK.

(** The encoder rejects the picture (5 is VP8_ENC_ERROR_BAD_DIMENSION). *)
Definition encode_fails : Codec :=
  codec true (EncodeFail 5) None K.WEBP_MUX_OK K.WEBP_MUX_OK.

(** The bytes handed to [SetMetaData] are not a WebP image. *)
Definition image_rejected : Codec :=
  codec true (EncodeFail 5) None K.WEBP_MUX_BAD_DATA K.WEBP_MUX_OK.

(** The multiplexer cannot take the metadata chunk. *)
Definition chunk_rejected : Codec :=
  codec true (EncodeFail 5) None K.WEBP_MUX_OK K.WEBP_MUX_MEMORY_ERROR.

End Example.

(** ** Observers of a log and further scenarios *)

Definition is_allocation (e : Event) : bool :=
  match e with EvOutputAllocator _ _ => true | _ => false end.

Definition is_demux_open (e : Event) : bool :=
  match e with EvWebPDemux true => true | _ => false end.

Definition is_demux_delete (e : Event) : bool :=
  match e with EvWebPDemuxDelete => true | _ => false end.

Definition is_iterator_release (e : Event) : bool :=
  match e with EvWebPDemuxReleaseChunkIterator => true | _ => false end.

Definition is_chunk_lookup (e : Event) : bool :=
  match e with EvWebPDemuxGetChunk _ _ => true | _ => false end.

Definition is_failed_import (e : Event) : bool :=
  match e with
  | EvWebPPictureImportBGRA ok | EvWebPPictureImportBGRX ok => negb ok
  | _ => false
  end.

Definition is_failed_set (e : Event) : bool :=
  match e with
  | EvWebPMuxSetImage err | EvWebPMuxSetChunk _ err =>
      negb (err =? K.WEBP_MUX_OK)
  | _ => false
  end.

Definition count (p : Event -> bool) (l : list Event) : nat :=
  List.length (filter p l).

(** The four-character codes of the [WebPMuxSetChunk] calls of a log, in
    order. *)
Fixpoint chunk_codes (l : list Event) : list string :=
  match l with
  | [] => []
  | EvWebPMuxSetChunk fourcc _ :: l' => fourcc :: chunk_codes l'
  | _ :: l' => chunk_codes l'
  end.

(** The kinds a metadata bundle carries (a size of 0 means absent), and
    the payload of each. *)
Definition wanted_chunks (metaData : MetaDataParams) : list string :=
  (if iccProfileSize metaData >? 0 then ["ICCP"%string] else [])
  ++ (if exifSize metaData >? 0 then ["EXIF"%string] else [])
  ++ (if xmpSize metaData >? 0 then ["XMP "%string] else []).

Definition chunk_payload (metaData : MetaDataParams) (fourcc : string)
  : option WebPData :=
  if String.eqb fourcc "ICCP" then
    Some {| bytes := iccProfile metaData; size := iccProfileSize metaData |}
  else if String.eqb fourcc "EXIF" then
    Some {| bytes := exif metaData; size := exifSize metaData |}
  else if String.eqb fourcc "XMP " then
    Some {| bytes := xmp metaData; size := xmpSize metaData |}
  else None.

(** The picture [WebPSave] hands to the import (lines 119-124: width,
    height and memory writer set on the configured picture) and to
    [WebPEncode] (lines 142-146: the progress hook registered for a
    non-null callback).  The configuration it hands to [WebPEncode] is
    [fst (configure config pic params)]. *)
Definition picture_at_import (config : WebPConfig) (pic : WebPPicture)
           (params : EncodeParams) (width height : Z) : WebPPicture :=
  set_writer WebPMemoryWrite
    (set_dimensions width height (snd (configure config pic params))).

Definition picture_at_encode (config : WebPConfig) (pic : WebPPicture)
           (params : EncodeParams) (width height : Z) (callback : addr)
  : WebPPicture :=
  if negb (callback =? nullptr)
  then set_progress callback progressFunc
         (picture_at_import config pic params width height)
  else picture_at_import config pic params width height.

(** What [WebPSave] has set in the configuration and the picture by the
    time it calls [WebPEncode]. *)
Definition prepared (params : EncodeParams) (width height : Z)
           (callback : addr) (c : WebPConfig) (p : WebPPicture) : bool :=
  (thread_level c =? 1) && (cfg_method c =? method params)
  && (pic_width p =? width) && (pic_height p =? height)
  && is_some (writer p) && custom_ptr p
  && ((callback =? nullptr)
      || ((user_data p =? callback) && is_some (progress_hook p))).

Module Scenario.

(** The encoded stream: byte [i] of the 64 bytes at 8192 is [i]. *)
Definition encoded : memory :=
  fun a => if (8192 <=? a) && (a <? 8256) then a - 8192 else 255.

(** An encoder whose answer depends on the configuration: it encodes a
    lossless configuration and rejects any other as
    INVALID_CONFIGURATION (4).  The import accepts a picture only once its
    memory writer is set. *)
Definition lossless_only : Codec :=
  {| WebPInitDecoderConfig := true;
     WebPDecode := fun _ _ _ m => (K.VP8_STATUS_OK, m);
     WebPConfigPreset := fun _ _ => Some Example.config_default;
     WebPPictureInit := Some Example.picture_init;
     WebPPictureImportBGRA := fun p _ _ _ => custom_ptr p;
     WebPPictureImportBGRX := fun p _ _ _ => custom_ptr p;
     WebPEncode := fun c _ _ =>
       if lossless c =? 1 then EncodeOk encoded 8192 64 else EncodeFail 4;
     WebPDemux := fun _ _ => None;
     WebPMuxNew := nullptr;
     WebPMuxSetImage := fun _ _ _ => K.WEBP_MUX_OK;
     WebPMuxSetChunk := fun _ _ _ _ => K.WEBP_MUX_OK;
     WebPMuxAssemble := fun _ m =>
       (K.WEBP_MUX_OK, {| bytes := 8192; size := 64 |}, m) |}.

(** The library cannot be initialised (header and library differ). *)
Definition version_skew : Codec :=
  {| WebPInitDecoderConfig := false;
     WebPDecode := fun _ _ _ m => (K.VP8_STATUS_OK, m);
     WebPConfigPreset := fun _ _ => None;
     WebPPictureInit := None;
     WebPPictureImportBGRA := fun _ _ _ _ => true;
     WebPPictureImportBGRX := fun _ _ _ _ => true;
     WebPEncode := fun _ _ _ => EncodeFail 4;
     WebPDemux := fun _ _ => None;
     WebPMuxNew := nullptr;
     WebPMuxSetImage := fun _ _ _ => K.WEBP_MUX_OK;
     WebPMuxSetChunk := fun _ _ _ _ => K.WEBP_MUX_OK;
     WebPMuxAssemble := fun _ m =>
       (K.WEBP_MUX_OK, {| bytes := 8192; size := 64 |}, m) |}.

(** A container with an EXIF chunk of 16 bytes at address 20000. *)
Definition exif_container : WebPDemuxer :=
  {| format_flags := K.EXIF_FLAG;
     find_chunk := fun fourcc n =>
       if String.eqb fourcc "EXIF" && (n =? 1)
       then Some {| bytes := 20000; size := 16 |} else None |}.

(** A container whose EXIF chunk claims 2^32 + 5 bytes. *)
Definition huge_container : WebPDemuxer :=
  {| format_flags := K.EXIF_FLAG;
     find_chunk := fun fourcc n =>
       if String.eqb fourcc "EXIF" && (n =? 1)
       then Some {| bytes := 20000; size := 4294967301 |} else None |}.

Definition reader (d : WebPDemuxer) : Codec :=
  Example.codec true (EncodeFail 5) (Some d) K.WEBP_MUX_OK K.WEBP_MUX_OK.

(** Memory whose byte at [a] is [a mod 256]. *)
Definition ramp : memory := fun a => a mod 256.

(** A multiplexer that rejects a null or empty payload, for the image and
    for every chunk, and insists on the copy flags the bridge uses. *)
Definition wary_mux : Codec :=
  {| WebPInitDecoderConfig := true;
     WebPDecode := fun _ _ _ m => (K.VP8_STATUS_OK, m);
     WebPConfigPreset := fun _ _ => None;
     WebPPictureInit := None;
     WebPPictureImportBGRA := fun _ _ _ _ => true;
     WebPPictureImportBGRX := fun _ _ _ _ => true;
     WebPEncode := fun _ _ _ => EncodeFail 4;
     WebPDemux := fun _ _ => None;
     WebPMuxNew := 512;
     WebPMuxSetImage := fun _ d c =>
       if (bytes d =? nullptr) || (size d <=? 0) || negb (c =? 0)
       then K.WEBP_MUX_INVALID_ARGUMENT else K.WEBP_MUX_OK;
     WebPMuxSetChunk := fun _ _ d c =>
       if (bytes d =? nullptr) || (size d <=? 0) || negb (c =? 1)
       then K.WEBP_MUX_INVALID_ARGUMENT else K.WEBP_MUX_OK;
     WebPMuxAssemble := fun _ _ =>
       (K.WEBP_MUX_OK, {| bytes := 8192; size := 64 |}, encoded) |}.

Definition all_metadata : MetaDataParams :=
  {| iccProfile := 30000; iccProfileSize := 128; exif := 31000;
     exifSize := 16; xmp := 32000; xmpSize := 40 |}.

End Scenario.

(** * Proofs *)

(** Symbolic execution of an entry point: unfold the monad, then split on
    every answer of the environment. *)
Ltac unfold_bridge :=
  unfold WebPSave, SetMetaData, GetMetaDataSize, ExtractMetaData, WebPLoad,
    encode_and_release, lookup_kind,
    call_WebPInitDecoderConfig, call_WebPDecode,
    call_WebPConfigPreset, call_WebPPictureInit,
    call_WebPPictureImportBGRA, call_WebPPictureImportBGRX, call_WebPEncode,
    call_allocator, call_WebPDemux, call_WebPDemuxGetI, call_WebPDemuxGetChunk,
    call_WebPMuxNew, call_WebPMuxSetImage, call_WebPMuxSetChunk,
    call_WebPMuxAssemble, memcpy_s,
    bind, ret, emit, get_mem, put_mem, load_out, store_out, initial in *.

Ltac split_run :=
  repeat (cbn [fst snd mem out log app negb is_some] in *;
    match goal with
    | H : (_, _) = (_, _) |- _ => inversion H; subst; clear H
    | H : Some _ = Some _ |- _ => inversion H; subst; clear H
    | H : Some _ = None |- _ => discriminate H
    | H : None = Some _ |- _ => discriminate H
    | H : context [match ?x with _ => _ end] |- _ => destruct x eqn:?
    | |- context [match ?x with _ => _ end] => destruct x eqn:?
    end).

(** Membership in an explicit log. *)
Ltac in_log :=
  cbn [In log fst snd app] in *;
  repeat match goal with
    | H : _ \/ _ |- _ => destruct H
    | H : False |- _ => destruct H
    | H : @eq Event _ _ |- _ => first [discriminate H | inversion H; clear H]
    end.

Ltac bool_clash :=
  repeat match goal with
    | H : negb _ = true |- _ => apply negb_true_iff in H
    | H : negb _ = false |- _ => apply negb_false_iff in H
    end;
  congruence.

(** The kind is absent, yet its flag is set and its chunk was found. *)
Ltac absent_clash :=
  repeat match goal with
    | H : negb _ = true |- _ => apply negb_true_iff in H
    | H : negb _ = false |- _ => apply negb_false_iff in H
    end;
  match goal with
  | Habs : _ || _ = true, H1 : (_ =? 0) = false |- _ =>
      rewrite H1 in Habs;
      repeat match goal with
        | H2 : find_chunk _ _ _ = Some _ |- _ => rewrite H2 in Habs
        end;
      discriminate Habs
  end.

Ltac null_clash :=
  subst;
  match goal with
  | H1 : ?a = nullptr, H2 : context [?a =? nullptr] |- _ =>
      rewrite H1 in H2; discriminate H2
  end.
(** ** The transparency scan *)

Lemma wrap_in_range z : CInt.in_range z -> CInt.wrap z = z.
Proof.
  unfold CInt.in_range, CInt.INT_MIN, CInt.INT_MAX, CInt.wrap. intros H.
  rewrite Z.mod_small by lia. lia.
Qed.

Section HasTransparencyFacts.

Variable m : memory.

Lemma scan_row_existsb n : forall ptr k,
  scan_row m (ptr + 4 * Z.of_nat k) n =
  existsb (transparent m)
          (map (fun x => ptr + 4 * Z.of_nat x + 3) (seq k n)).
Proof.
  induction n as [|n IH]; intros ptr k;
    cbn [scan_row existsb map seq]; [reflexivity|].
  unfold transparent at 1.
  destruct (m (ptr + 4 * Z.of_nat k + 3) <? 255);
    cbn [orb]; [reflexivity|].
  rewrite <- IH. f_equal. lia.
Qed.

Lemma scan_row_zrange ptr width :
  scan_row m ptr (Z.to_nat width) =
  existsb (transparent m) (map (fun x => ptr + 4 * x + 3) (zrange width)).
Proof.
  unfold zrange. rewrite map_map.
  rewrite <- scan_row_existsb. f_equal. lia.
Qed.

Lemma scan_rows_existsb scan0 width stride n : forall k,
  scan_rows m scan0 width stride (Z.of_nat k) n =
  existsb (transparent m)
    (flat_map (fun y => map (fun x => scan0 + CInt.wrap (y * stride) + 4 * x + 3)
                            (zrange width))
              (map Z.of_nat (seq k n))).
Proof.
  induction n as [|n IH]; intros k;
    cbn [scan_rows existsb map seq flat_map]; [reflexivity|].
  rewrite existsb_app, <- scan_row_zrange.
  destruct (scan_row m _ _); cbn [orb]; [reflexivity|].
  rewrite <- IH. f_equal. lia.
Qed.

Lemma flat_map_agree {A B} (f g : A -> list B) l :
  (forall a, In a l -> f a = g a) -> flat_map f l = flat_map g l.
Proof.
  induction l as [|a l IH]; intros H; cbn [flat_map]; [reflexivity|].
  rewrite (H a (or_introl eq_refl)), IH; [reflexivity|].
  intros b Hb. apply H. now right.
Qed.

Lemma in_zrange n x : In x (zrange n) <-> 0 <= x < n.
Proof.
  unfold zrange. rewrite in_map_iff. split.
  - intros [k [<- Hk]]. apply in_seq in Hk. lia.
  - intros H. exists (Z.to_nat x). split; [lia|]. apply in_seq. lia.
Qed.

(** Without the assumption on overflow: the scan is the row-major,
    short-circuiting search over the addresses the loops compute. *)
Lemma HasTransparency_wrapped data width height stride :
  HasTransparency m data width height stride =
  existsb (transparent m)
    (flat_map (fun y => map (fun x => data + CInt.wrap (y * stride) + 4 * x + 3)
                            (zrange width))
              (zrange height)).
Proof.
  unfold HasTransparency. apply (scan_rows_existsb data width stride _ 0%nat).
Qed.

Lemma HasTransparency_existsb data width height stride :
  (forall y, 0 <= y < height -> CInt.in_range (y * stride)) ->
  HasTransparency m data width height stride =
  existsb (transparent m) (alpha_addresses data width height stride).
Proof.
  intros Hov. rewrite HasTransparency_wrapped. unfold alpha_addresses.
  f_equal. apply flat_map_agree. intros y Hy. apply in_zrange in Hy.
  apply map_ext. intros x. unfold alpha_addr.
  rewrite wrap_in_range by auto. reflexivity.
Qed.

Lemma in_alpha_addresses data width height stride a :
  In a (alpha_addresses data width height stride) <->
  exists x y, 0 <= x < width /\ 0 <= y < height /\
              a = alpha_addr data stride x y.
Proof.
  unfold alpha_addresses. rewrite in_flat_map. split.
  - intros [y [Hy Ha]]. apply in_map_iff in Ha. destruct Ha as [x [<- Hx]].
    exists x, y. rewrite in_zrange in Hx, Hy. auto.
  - intros [x [y [Hx [Hy ->]]]]. exists y. split; [now apply in_zrange|].
    apply in_map_iff. exists x. split; [reflexivity | now apply in_zrange].
Qed.

End HasTransparencyFacts.

(** C5. For a pixel buffer of the given width, height and stride (with the
    row offsets [y * stride] representable in [int]), [HasTransparency]
    is the short-circuiting search over the alpha bytes in row-major order
    (rows top to bottom, pixels left to right, only the byte at offset 3 of
    each 4-byte pixel is read); it returns true exactly when some pixel of
    the region has an alpha byte below 255, and false when every alpha byte
    is 255. *)
Theorem HasTransparency_spec (m : memory) (data : addr) (width height stride : Z) :
  (forall y, 0 <= y < height -> CInt.in_range (y * stride)) ->
  HasTransparency m data width height stride =
    existsb (transparent m) (alpha_addresses data width height stride)
  /\ (HasTransparency m data width height stride = true <->
      exists x y, 0 <= x < width /\ 0 <= y < height /\
                  m (data + y * stride + 4 * x + 3) < 255)
  /\ ((forall x y, 0 <= x < width -> 0 <= y < height ->
                   m (data + y * stride + 4 * x + 3) = 255) ->
      HasTransparency m data width height stride = false).
Proof.
  intros Hov. pose proof (HasTransparency_existsb m data width height stride Hov) as E.
  split; [exact E|]. rewrite E. split.
  - rewrite existsb_exists. split.
    + intros [a [Ha Ht]]. apply in_alpha_addresses in Ha.
      destruct Ha as [x [y [Hx [Hy ->]]]]. exists x, y.
      unfold transparent, alpha_addr in Ht. apply Z.ltb_lt in Ht. auto.
    + intros [x [y [Hx [Hy Hlt]]]]. exists (alpha_addr data stride x y). split.
      * apply in_alpha_addresses. exists x, y. auto.
      * unfold transparent, alpha_addr. now apply Z.ltb_lt.
  - intros Hall. apply not_true_is_false. intros Ht.
    apply existsb_exists in Ht. destruct Ht as [a [Ha Ht]].
    apply in_alpha_addresses in Ha. destruct Ha as [x [y [Hx [Hy ->]]]].
    unfold transparent, alpha_addr in Ht. apply Z.ltb_lt in Ht.
    rewrite (Hall x y Hx Hy) in Ht. lia.
Qed.

Lemma HasTransparency_spec_witness :
  HasTransparency Example.corner 0 2 2 8 = true
  /\ HasTransparency Example.opaque 0 2 2 8 = false.
Proof.
  assert (Hov : forall y, 0 <= y < 2 -> CInt.in_range (y * 8)).
  { intros y Hy. unfold CInt.in_range, CInt.INT_MIN, CInt.INT_MAX. lia. }
  split.
  - apply (HasTransparency_spec Example.corner 0 2 2 8 Hov).
    exists 1, 1. vm_compute. repeat split; discriminate.
  - apply (HasTransparency_spec Example.opaque 0 2 2 8 Hov).
    intros x y _ _. reflexivity.
Defined.

(** ** Encoder settings *)

(** C8. In [WebPSave], starting from a configuration whose lossless mode is
    off (as the library's preset initialisation leaves it), lossless mode
    is on afterwards if and only if quality equals 100.  At quality 100 the
    picture is switched to ARGB and the content hint is photo, picture or
    graph for the photo, picture and drawing presets (three different
    values) and stays as it was for every other preset.  At any other
    quality lossless mode stays off, the hint stays as it was, and the
    lossy settings are applied: the target size when the file size is
    positive, the filter strength below the icon preset, the filter type,
    the sharpness and the noise shaping strength. *)
Theorem configure_lossless_iff_quality_100
        (config : WebPConfig) (pic : WebPPicture) (params : EncodeParams) :
  lossless config = 0 ->
  let config' := fst (configure config pic params) in
  let pic' := snd (configure config pic params) in
  (lossless config' = 1 <-> SFeqb (quality params) K.float_100 = true)
  /\ (SFeqb (quality params) K.float_100 = true ->
      use_argb pic' = 1
      /\ image_hint config' =
         (if preset params =? K.WEBP_PRESET_PHOTO then K.WEBP_HINT_PHOTO
          else if preset params =? K.WEBP_PRESET_PICTURE then K.WEBP_HINT_PICTURE
          else if preset params =? K.WEBP_PRESET_DRAWING then K.WEBP_HINT_GRAPH
          else image_hint config))
  /\ (K.WEBP_HINT_PHOTO <> K.WEBP_HINT_PICTURE
      /\ K.WEBP_HINT_PHOTO <> K.WEBP_HINT_GRAPH
      /\ K.WEBP_HINT_PICTURE <> K.WEBP_HINT_GRAPH)
  /\ (SFeqb (quality params) K.float_100 = false ->
      lossless config' = 0
      /\ pic' = pic
      /\ image_hint config' = image_hint config
      /\ target_size config' =
         (if fileSize params >? 0 then fileSize params else target_size config)
      /\ filter_strength config' =
         (if preset params <? K.WEBP_PRESET_ICON then filterStrength params
          else filter_strength config)
      /\ filter_type config' = filterType params
      /\ filter_sharpness config' = sharpness params
      /\ sns_strength config' = noiseShaping params).
Proof.
  intros Hoff. unfold configure.
  destruct (SFeqb (quality params) K.float_100) eqn:Hq; cbn [fst snd].
  - split; [|split; [|split]].
    + destruct (preset params =? K.WEBP_PRESET_PHOTO),
               (preset params =? K.WEBP_PRESET_PICTURE),
               (preset params =? K.WEBP_PRESET_DRAWING); cbn; tauto.
    + intros _. split; [reflexivity|].
      destruct (preset params =? K.WEBP_PRESET_PHOTO),
               (preset params =? K.WEBP_PRESET_PICTURE),
               (preset params =? K.WEBP_PRESET_DRAWING); reflexivity.
    + repeat split; discriminate.
    + discriminate.
  - split; [|split; [|split]].
    + destruct (fileSize params >? 0), (preset params <? K.WEBP_PRESET_ICON);
        cbn; rewrite Hoff; split; discriminate.
    + discriminate.
    + repeat split; discriminate.
    + intros _.
      destruct (fileSize params >? 0), (preset params <? K.WEBP_PRESET_ICON);
        cbn; repeat split; assumption.
Qed.

Lemma configure_lossless_iff_quality_100_witness :
  let config' :=
    fst (configure Example.config_default Example.picture_init
                   (Example.params K.float_100 K.WEBP_PRESET_DRAWING)) in
  lossless config' = 1 /\ image_hint config' = K.WEBP_HINT_GRAPH.
Proof.
  destruct (configure_lossless_iff_quality_100
              Example.config_default Example.picture_init
              (Example.params K.float_100 K.WEBP_PRESET_DRAWING) eq_refl)
    as [Hl [Hh _]].
  split.
  - apply Hl. reflexivity.
  - apply (Hh eq_refl).
Defined.

(** C4, as the code has it.  In the lossy branch of [WebPSave] (quality
    other than 100) the caller's filter strength is written to the
    configuration exactly when the preset is below the icon preset in the
    library's enumeration, that is for the default, picture, photo and
    drawing presets; for the icon preset and for the text preset the
    configuration keeps the filter strength the preset gave it. *)
Theorem filter_strength_applied_below_icon
        (config : WebPConfig) (pic : WebPPicture) (params : EncodeParams) :
  SFeqb (quality params) K.float_100 = false ->
  filter_strength (fst (configure config pic params)) =
    (if preset params <? K.WEBP_PRESET_ICON then filterStrength params
     else filter_strength config)
  /\ K.WEBP_PRESET_DEFAULT < K.WEBP_PRESET_ICON
  /\ K.WEBP_PRESET_PICTURE < K.WEBP_PRESET_ICON
  /\ K.WEBP_PRESET_PHOTO < K.WEBP_PRESET_ICON
  /\ K.WEBP_PRESET_DRAWING < K.WEBP_PRESET_ICON
  /\ K.WEBP_PRESET_ICON < K.WEBP_PRESET_TEXT.
Proof.
  intros Hq. split; [|repeat split].
  unfold configure. rewrite Hq.
  destruct (fileSize params >? 0), (preset params <? K.WEBP_PRESET_ICON);
    reflexivity.
Qed.

Lemma filter_strength_applied_below_icon_witness :
  filter_strength
    (fst (configure Example.config_default Example.picture_init
                    (Example.params Example.float_75 K.WEBP_PRESET_PHOTO))) = 35.
Proof.
  apply (filter_strength_applied_below_icon
           Example.config_default Example.picture_init
           (Example.params Example.float_75 K.WEBP_PRESET_PHOTO)).
  reflexivity.
Defined.

(** C4 as stated fails for the text preset: the quality is not 100, the
    preset is not the icon preset, and yet the caller's filter strength 35
    is not applied (the configuration keeps the preset's 0). *)
Lemma filter_strength_ignored_for_text :
  let params := Example.params Example.float_75 K.WEBP_PRESET_TEXT in
  SFeqb (quality params) K.float_100 = false
  /\ preset params <> K.WEBP_PRESET_ICON
  /\ filter_strength
       (fst (configure Example.config_sharp Example.picture_init params))
     <> filterStrength params.
Proof.
  cbv zeta. split; [reflexivity|]. split; discriminate.
Qed.

(** ** Decoding *)

(** C9. [WebPLoad] returns the version mismatch code, which is -1, when the
    decoder configuration cannot be initialised; otherwise it returns the
    status [WebPDecode] gave for the caller's buffer (described as external
    BGRA memory), unchanged; the library's success status is 0, so a
    successful decode returns 0. *)
Theorem WebPLoad_status (lib : Codec) (data : addr) (dataSize : Z)
        (outData : addr) (outSize outStride : Z) (st : State) :
  fst (WebPLoad lib data dataSize outData outSize outStride st) =
    (if WebPInitDecoderConfig lib then
       fst (WebPDecode lib data dataSize
              {| colorspace := K.MODE_BGRA; is_external_memory := 1;
                 rgba := outData; rgba_size := outSize;
                 rgba_stride := outStride |} (mem st))
     else K.errVersionMismatch)
  /\ K.errVersionMismatch = -1
  /\ K.VP8_STATUS_OK = 0.
Proof.
  split; [|split; reflexivity].
  unfold_bridge. destruct (WebPInitDecoderConfig lib); cbn; [|reflexivity].
  destruct (WebPDecode lib _ _ _ _); reflexivity.
Qed.

(** ** The allocator protocol *)

(** C6. With a null allocator [WebPSave] returns
    VP8_ENC_ERROR_NULL_PARAMETER and [SetMetaData] returns
    WEBP_MUX_INVALID_ARGUMENT at once: the state is returned as it was, so
    nothing is logged (no allocation, no call into the library), the
    out-parameter is not assigned and memory is not written. *)
Theorem null_allocator_rejected (lib : Codec) (bitmap : addr)
        (width height stride : Z) (params : EncodeParams) (callback : addr)
        (image : addr) (imageSize : Z) (metaData : MetaDataParams)
        (st : State) :
  WebPSave lib None bitmap width height stride params callback st =
    (K.VP8_ENC_ERROR_NULL_PARAMETER, st)
  /\ SetMetaData lib image imageSize None metaData st =
    (K.WEBP_MUX_INVALID_ARGUMENT, st).
Proof. split; reflexivity. Qed.

Section SaveFacts.

Variable lib : Codec.
Variables (bitmap : addr) (width height stride : Z).
Variables (params : EncodeParams) (callback : addr).
Variables (m : memory) (o : Z).

(** The out-parameter changes only by an assignment. *)
Lemma WebPSave_out_frame outputAllocator :
  let st' := snd (WebPSave lib outputAllocator bitmap width height stride
                           params callback (initial m o)) in
  existsb is_store (log st') = false -> out st' = o.
Proof.
  cbv zeta. destruct outputAllocator as [alloc|]; [|reflexivity].
  unfold_bridge. split_run; cbn; intros H; try reflexivity; discriminate H.
Qed.

Lemma WebPSave_stores_guarded outputAllocator :
  stores_guarded false
    (log (snd (WebPSave lib outputAllocator bitmap width height stride
                        params callback (initial m o)))) = true.
Proof.
  destruct outputAllocator as [alloc|]; [|reflexivity].
  unfold_bridge. split_run; reflexivity.
Qed.

(** Once the picture has been imported, the writer and the picture are
    released before [WebPSave] returns. *)
Lemma WebPSave_releases_after_import outputAllocator :
  let st' := snd (WebPSave lib outputAllocator bitmap width height stride
                           params callback (initial m o)) in
  In (EvWebPPictureImportBGRA true) (log st')
  \/ In (EvWebPPictureImportBGRX true) (log st') ->
  held MemoryWriter (log st') = false /\ held Picture (log st') = false.
Proof.
  cbv zeta. destruct outputAllocator as [alloc|];
    [|cbn; intros [[]|[]]].
  unfold_bridge. split_run; intros H; try (split; reflexivity).
  all: exfalso; in_log; bool_clash.
Qed.

(** A failed import returns with the writer and the picture still held. *)
Lemma WebPSave_import_failure_leaks outputAllocator :
  let run := WebPSave lib outputAllocator bitmap width height stride
                      params callback (initial m o) in
  In (EvWebPPictureImportBGRA false) (log (snd run))
  \/ In (EvWebPPictureImportBGRX false) (log (snd run)) ->
  fst run = K.VP8_ENC_ERROR_OUT_OF_MEMORY
  /\ held MemoryWriter (log (snd run)) = true
  /\ held Picture (log (snd run)) = true.
Proof.
  cbv zeta. destruct outputAllocator as [alloc|];
    [|cbn; intros [[]|[]]].
  unfold_bridge. split_run; intros H; try (repeat split; reflexivity).
  all: exfalso; in_log; bool_clash.
Qed.

End SaveFacts.

Lemma stores_guarded_sound (l : list Event) :
  forall seen, stores_guarded seen l = true ->
  forall l1 v l2, l = l1 ++ StoreOut v :: l2 ->
  seen = true \/ In (EvWebPEncode true) l1.
Proof.
  induction l as [|e l IH]; intros seen Hg l1 v l2 E.
  - destruct l1; discriminate E.
  - destruct l1 as [|e1 l1]; cbn [app] in E; inversion E; subst; clear E.
    + cbn in Hg. apply andb_prop in Hg. left. apply Hg.
    + cbn [stores_guarded] in Hg. destruct (is_store e1) eqn:Es.
      * apply andb_prop in Hg. destruct Hg as [Hs Hg].
        destruct (IH seen Hg l1 v l2 eq_refl) as [H|H]; [now left|].
        right. now right.
      * destruct (IH _ Hg l1 v l2 eq_refl) as [H|H].
        -- apply orb_prop in H. destruct H as [H|H]; [now left|].
           right. left. destruct e1 as [| | | | | | |[|]| | | | | | | | | | | | | | | | |];
             try discriminate H. reflexivity.
        -- right. now right.
Qed.

Lemma existsb_is_store_false (l : list Event) :
  (forall v, ~ In (StoreOut v) l) -> existsb is_store l = false.
Proof.
  induction l as [|e l IH]; intros H; [reflexivity|]. cbn [existsb].
  rewrite IH by (intros v Hv; apply (H v); now right).
  destruct e; try reflexivity. exfalso. apply (H v). now left.
Qed.

Section SaveClaims.

Variable lib : Codec.
Variables (bitmap : addr) (width height stride : Z).
Variables (params : EncodeParams) (callback : addr).
Variables (m : memory) (o : Z).

(** On each of the four failing paths nothing is assigned through the
    out-parameter. *)
Lemma WebPSave_failure_paths outputAllocator :
  let st' := snd (WebPSave lib outputAllocator bitmap width height stride
                           params callback (initial m o)) in
  outputAllocator = None
  \/ In (EvWebPConfigPreset false) (log st')
  \/ In (EvWebPPictureInit false) (log st')
  \/ In (EvWebPPictureImportBGRA false) (log st')
  \/ In (EvWebPPictureImportBGRX false) (log st')
  \/ In (EvWebPEncode false) (log st') ->
  ~ In (EvWebPEncode true) (log st').
Proof.
  cbv zeta. destruct outputAllocator as [alloc|]; [|intros _ []].
  unfold_bridge. split_run; intros H Henc; in_log; bool_clash.
Qed.

End SaveClaims.

(** C10. In [WebPSave] every assignment through the out-parameter is
    preceded in the call by a successful [WebPEncode]; a call without a
    successful encode, which is the case on the null allocator, version
    mismatch, failed import and failed encode paths, makes no such
    assignment and leaves the caller's pointer as it was. *)
Theorem WebPSave_output_written_only_after_encode
        (lib : Codec) (outputAllocator : option OutputBufferAllocFn)
        (bitmap : addr) (width height stride : Z) (params : EncodeParams)
        (callback : addr) (m : memory) (o : Z) :
  let st' := snd (WebPSave lib outputAllocator bitmap width height stride
                           params callback (initial m o)) in
  (forall l1 v l2, log st' = l1 ++ StoreOut v :: l2 ->
                   In (EvWebPEncode true) l1)
  /\ (~ In (EvWebPEncode true) (log st') ->
      out st' = o /\ forall v, ~ In (StoreOut v) (log st'))
  /\ (outputAllocator = None
      \/ In (EvWebPConfigPreset false) (log st')
      \/ In (EvWebPPictureInit false) (log st')
      \/ In (EvWebPPictureImportBGRA false) (log st')
      \/ In (EvWebPPictureImportBGRX false) (log st')
      \/ In (EvWebPEncode false) (log st') ->
      out st' = o /\ forall v, ~ In (StoreOut v) (log st')).
Proof.
  cbv zeta.
  set (st' := snd (WebPSave lib outputAllocator bitmap width height stride
                            params callback (initial m o))).
  assert (Hafter : forall l1 v l2, log st' = l1 ++ StoreOut v :: l2 ->
                                   In (EvWebPEncode true) l1).
  { intros l1 v l2 E.
    destruct (stores_guarded_sound (log st') false
                (WebPSave_stores_guarded lib bitmap width height stride params
                   callback m o outputAllocator) l1 v l2 E) as [H|H];
      [discriminate H | exact H]. }
  assert (Hnone : ~ In (EvWebPEncode true) (log st') ->
                  out st' = o /\ forall v, ~ In (StoreOut v) (log st')).
  { intros Hno.
    assert (Hst : forall v, ~ In (StoreOut v) (log st')).
    { intros v Hv. apply in_split in Hv. destruct Hv as [l1 [l2 E]].
      apply Hno. rewrite E. apply in_or_app. left. exact (Hafter l1 v l2 E). }
    split; [|exact Hst].
    apply WebPSave_out_frame. now apply existsb_is_store_false. }
  split; [exact Hafter|]. split; [exact Hnone|].
  intros Hpath. apply Hnone.
  now apply (WebPSave_failure_paths lib bitmap width height stride params
               callback m o outputAllocator).
Qed.

Lemma WebPSave_output_written_only_after_encode_witness :
  out (snd (WebPSave Example.encode_fails (Some Example.allocator_ok)
                     0 2 2 8 (Example.params Example.float_75 K.WEBP_PRESET_PHOTO)
                     nullptr (initial Example.opaque 77))) = 77.
Proof.
  apply (WebPSave_output_written_only_after_encode
           Example.encode_fails (Some Example.allocator_ok)
           0 2 2 8 (Example.params Example.float_75 K.WEBP_PRESET_PHOTO)
           nullptr Example.opaque 77).
  do 5 right. vm_compute. tauto.
Defined.

(** C7. If, in a call to [WebPSave], [WebPEncode] succeeded and the host's
    allocator returned a null pointer, the call returns
    VP8_ENC_ERROR_OUT_OF_MEMORY; if, in a call to [SetMetaData],
    [WebPMuxAssemble] succeeded and the allocator returned a null pointer,
    the call returns WEBP_MUX_MEMORY_ERROR. *)
Theorem allocator_failure_is_out_of_memory
        (lib : Codec) (outputAllocator : option OutputBufferAllocFn)
        (bitmap : addr) (width height stride : Z) (params : EncodeParams)
        (callback : addr) (image : addr) (imageSize : Z)
        (metaData : MetaDataParams) (m : memory) (o : Z) :
  let save := WebPSave lib outputAllocator bitmap width height stride
                       params callback (initial m o) in
  let inject := SetMetaData lib image imageSize outputAllocator metaData
                            (initial m o) in
  (In (EvWebPEncode true) (log (snd save)) ->
   (exists n, In (EvOutputAllocator n nullptr) (log (snd save))) ->
   fst save = K.VP8_ENC_ERROR_OUT_OF_MEMORY)
  /\ (In (EvWebPMuxAssemble K.WEBP_MUX_OK) (log (snd inject)) ->
      (exists n, In (EvOutputAllocator n nullptr) (log (snd inject))) ->
      fst inject = K.WEBP_MUX_MEMORY_ERROR).
Proof.
  cbv zeta. destruct outputAllocator as [alloc|];
    [|split; intros []]. split.
  - unfold_bridge. split_run; intros Henc [n Hal]; try reflexivity;
      exfalso; in_log; first [null_clash | congruence].
  - unfold_bridge. split_run; intros Hasm [n Hal]; try reflexivity;
      exfalso; in_log; first [null_clash | congruence].
Qed.

Lemma allocator_failure_is_out_of_memory_witness :
  fst (WebPSave Example.healthy (Some Example.allocator_null) 0 2 2 8
                (Example.params Example.float_75 K.WEBP_PRESET_PHOTO) nullptr
                (initial Example.opaque 77)) = K.VP8_ENC_ERROR_OUT_OF_MEMORY
  /\ fst (SetMetaData Example.healthy 16384 64 (Some Example.allocator_null)
                      Example.exif_only (initial Example.opaque 77))
     = K.WEBP_MUX_MEMORY_ERROR.
Proof.
  destruct (allocator_failure_is_out_of_memory
              Example.healthy (Some Example.allocator_null) 0 2 2 8
              (Example.params Example.float_75 K.WEBP_PRESET_PHOTO) nullptr
              16384 64 Example.exif_only Example.opaque 77) as [Hs Hi].
  split.
  - apply Hs; [vm_compute; tauto | exists 64; vm_compute; tauto].
  - apply Hi; [vm_compute; tauto | exists 64; vm_compute; tauto].
Defined.

(** ** Release of codec resources *)

(** C1 fails on the code: when the picture import fails, [WebPSave] returns
    VP8_ENC_ERROR_OUT_OF_MEMORY straight away.  The memory writer has been
    initialised and the picture set up by then, and neither
    [WebPMemoryWriterClear] nor [WebPPictureFree] is called; both are
    still held at the return.  This holds on the BGRX import (opaque
    bitmap) and on the BGRA import (bitmap with a transparent pixel). *)
Theorem WebPSave_import_failure_skips_release :
  let save bitmap_memory :=
    WebPSave Example.import_fails (Some Example.allocator_ok) 0 2 2 8
             (Example.params Example.float_75 K.WEBP_PRESET_PHOTO) nullptr
             (initial bitmap_memory 0) in
  fst (save Example.opaque) = K.VP8_ENC_ERROR_OUT_OF_MEMORY
  /\ log (snd (save Example.opaque)) =
       [EvWebPConfigPreset true; EvWebPPictureInit true;
        EvWebPMemoryWriterInit; EvWebPPictureImportBGRX false]
  /\ held MemoryWriter (log (snd (save Example.opaque))) = true
  /\ held Picture (log (snd (save Example.opaque))) = true
  /\ fst (save Example.corner) = K.VP8_ENC_ERROR_OUT_OF_MEMORY
  /\ log (snd (save Example.corner)) =
       [EvWebPConfigPreset true; EvWebPPictureInit true;
        EvWebPMemoryWriterInit; EvWebPPictureImportBGRA false]
  /\ held MemoryWriter (log (snd (save Example.corner))) = true
  /\ held Picture (log (snd (save Example.corner))) = true.
Proof. cbv zeta. repeat split; vm_compute; reflexivity. Qed.

Section InjectFacts.

Variable lib : Codec.
Variables (image : addr) (imageSize : Z) (metaData : MetaDataParams).
Variables (m : memory) (o : Z).

(** [SetMetaData] deletes the multiplexer exactly on the paths that reach
    [WebPMuxAssemble]. *)
Lemma SetMetaData_mux_held outputAllocator :
  let st' := snd (SetMetaData lib image imageSize outputAllocator metaData
                              (initial m o)) in
  In (EvWebPMuxNew (WebPMuxNew lib)) (log st') ->
  WebPMuxNew lib <> nullptr ->
  held Mux (log st') =
  negb (existsb (fun e => match e with EvWebPMuxAssemble _ => true
                                     | _ => false end) (log st')).
Proof.
  cbv zeta. destruct outputAllocator as [alloc|]; [|intros []].
  unfold_bridge. split_run; intros _ Hmux;
    try (apply Z.eqb_eq in Heqb; contradiction);
    cbn [log snd fst app]; unfold held;
    cbn [fold_left acquires releases existsb orb negb];
    rewrite ?Heqb; reflexivity.
Qed.

End InjectFacts.

(** C2 fails on the code: when [WebPMuxSetImage] rejects the image, or when
    a [WebPMuxSetChunk] fails, [SetMetaData] returns the error without
    calling [WebPMuxDelete]; the multiplexer it created is still held at
    the return. *)
Theorem SetMetaData_failed_set_keeps_mux :
  let rejected :=
    SetMetaData Example.image_rejected 16384 64 (Some Example.allocator_ok)
                Example.no_metadata (initial Example.opaque 0) in
  let chunk :=
    SetMetaData Example.chunk_rejected 16384 64 (Some Example.allocator_ok)
                Example.exif_only (initial Example.opaque 0) in
  fst rejected = K.WEBP_MUX_BAD_DATA
  /\ log (snd rejected) = [EvWebPMuxNew 512; EvWebPMuxSetImage K.WEBP_MUX_BAD_DATA]
  /\ held Mux (log (snd rejected)) = true
  /\ fst chunk = K.WEBP_MUX_MEMORY_ERROR
  /\ log (snd chunk) =
       [EvWebPMuxNew 512; EvWebPMuxSetImage K.WEBP_MUX_OK;
        EvWebPMuxSetChunk "EXIF" K.WEBP_MUX_MEMORY_ERROR]
  /\ held Mux (log (snd chunk)) = true.
Proof. cbv zeta. repeat split; vm_compute; reflexivity. Qed.

(** ** Absent metadata *)

(** What the readers do for an absent kind (the container does not open,
    or the kind's flag is clear, or the container has no chunk of the
    kind).  [GetMetaDataSize] leaves 0 in [*outSize] and raises nothing.
    [ExtractMetaData] does nothing but the failed open when the container
    does not open.  When the container opens there is no check for
    absence before the copy: the copy is issued with a null source and
    [outSize] as the count, which is harmless only for [outSize] 0. *)
Theorem metadata_absent_behaviour
        (lib : Codec) (data : addr) (dataSize : Z) (outData : addr)
        (outSize : Z) (type : Z) (m : memory) (o : Z) :
  let d := WebPDemux lib {| bytes := data; size := dataSize |} m in
  let q := snd (GetMetaDataSize lib data dataSize type (initial m o)) in
  let x := snd (ExtractMetaData lib data dataSize outData outSize type
                                (initial m o)) in
  metadata_absent d type = true ->
  out q = 0
  /\ ~ In EvInvalidParameter (log q)
  /\ (d = None -> x = {| mem := m; out := o; log := [EvWebPDemux false] |})
  /\ (d <> None ->
      In (Ev_memcpy_s outData outSize nullptr outSize) (log x)
      /\ forall dest n src c, In (Ev_memcpy_s dest n src c) (log x) ->
                              src = nullptr)
  /\ (outSize = 0 -> mem x = m /\ ~ In EvInvalidParameter (log x)).
Proof.
  cbv zeta. unfold metadata_absent, kind_chunk. intros Habs.
  split; [|split; [|split; [|split]]].
  - unfold_bridge. split_run; cbn; try reflexivity; absent_clash.
  - unfold_bridge. split_run; intros H; in_log.
  - intros E. unfold_bridge. cbn [mem]. rewrite E. reflexivity.
  - unfold_bridge. intros Hd. split_run; try congruence; try absent_clash.
    all: split; [in_log; tauto | intros dest n src c H; in_log; reflexivity].
  - intros ->. unfold_bridge.
    split_run; try absent_clash; try discriminate;
      (split; [reflexivity | intros H; in_log]).
Qed.

Lemma metadata_absent_behaviour_witness :
  out (snd (GetMetaDataSize Example.healthy 16384 64 K.EXIF
                            (initial Example.sevens 99))) = 0
  /\ mem (snd (ExtractMetaData Example.healthy 16384 64 1000 0 K.EXIF
                               (initial Example.sevens 99))) = Example.sevens.
Proof.
  destruct (metadata_absent_behaviour Example.healthy 16384 64 1000 0 K.EXIF
              Example.sevens 99 eq_refl) as [Hq [_ [_ [_ Hx]]]].
  split; [exact Hq | exact (proj1 (Hx eq_refl))].
Defined.

(** C3 fails on the code: [ExtractMetaData] does not check for absence
    before it copies.  When the container opens without the EXIF flag and
    the caller passes a buffer of four bytes, the copy is issued with a
    null source (line 253): the runtime's invalid parameter handler is
    raised and the caller's buffer, which held sevens, is overwritten with
    zeros, where the claim has no copy and no error.  The path on which the
    container does not open, and [GetMetaDataSize] on the same input, stay
    silent. *)
Lemma ExtractMetaData_absent_overwrites_buffer :
  let x := snd (ExtractMetaData Example.healthy 16384 64 1000 4 K.EXIF
                                (initial Example.sevens 99)) in
  metadata_absent
    (WebPDemux Example.healthy {| bytes := 16384; size := 64 |} Example.sevens)
    K.EXIF = true
  /\ log x = [EvWebPDemux true; EvWebPDemuxGetI;
              Ev_memcpy_s 1000 4 nullptr 4; EvInvalidParameter;
              EvWebPDemuxReleaseChunkIterator; EvWebPDemuxDelete]
  /\ Example.sevens 1000 = 7
  /\ mem x 1000 = 0
  /\ mem x 1000 <> Example.sevens 1000.
Proof.
  cbv zeta. repeat split; try (vm_compute; reflexivity).
  vm_compute. discriminate.
Qed.

(** * Further properties *)

(** ** The transparency scan, continued *)

Lemma existsb_agree {A} (f g : A -> bool) (l : list A) :
  (forall a, In a l -> f a = g a) -> existsb f l = existsb g l.
Proof.
  induction l as [|a l IH]; intros H; [reflexivity|]. cbn [existsb].
  rewrite (H a (or_introl eq_refl)), IH; [reflexivity|].
  intros b Hb. apply H. now right.
Qed.

Lemma flat_map_empty {A B} (l : list A) :
  flat_map (fun _ : A => @nil B) l = [].
Proof. induction l as [|a l IH]; [reflexivity | exact IH]. Qed.

Lemma zrange_nonpositive n : n <= 0 -> zrange n = [].
Proof.
  intros H. unfold zrange. replace (Z.to_nat n) with 0%nat by lia. reflexivity.
Qed.

(** X1. A region without pixels has no transparency: when the width or the
    height is zero or negative, [HasTransparency] returns false whatever
    the memory holds. *)
Theorem HasTransparency_empty_region
        (m : memory) (data : addr) (width height stride : Z) :
  width <= 0 \/ height <= 0 ->
  HasTransparency m data width height stride = false.
Proof.
  intros H. rewrite HasTransparency_wrapped. destruct H as [H|H].
  - rewrite (zrange_nonpositive width H). cbn [map].
    rewrite flat_map_empty. reflexivity.
  - rewrite (zrange_nonpositive height H). reflexivity.
Qed.

Lemma HasTransparency_empty_region_witness :
  HasTransparency Example.sevens 0 0 5 20 = false
  /\ HasTransparency Example.sevens 0 5 (-1) 20 = false.
Proof.
  split; apply HasTransparency_empty_region; [left | right]; lia.
Defined.

(** X2. [HasTransparency] reads nothing but the alpha bytes of the region:
    two memories that agree on the byte at offset 3 of every pixel of the
    region give the same answer, whatever the colour channels, the row
    padding and the rest of memory hold.  (The row offset is the [int]
    product the code computes.) *)
Theorem HasTransparency_reads_alpha_only
        (m1 m2 : memory) (data : addr) (width height stride : Z) :
  (forall x y, 0 <= x < width -> 0 <= y < height ->
     m1 (data + CInt.wrap (y * stride) + 4 * x + 3) =
     m2 (data + CInt.wrap (y * stride) + 4 * x + 3)) ->
  HasTransparency m1 data width height stride =
  HasTransparency m2 data width height stride.
Proof.
  intros H. rewrite !HasTransparency_wrapped. apply existsb_agree.
  intros a Ha. apply in_flat_map in Ha. destruct Ha as [y [Hy Ha]].
  apply in_map_iff in Ha. destruct Ha as [x [<- Hx]].
  apply in_zrange in Hx, Hy. unfold transparent. now rewrite H.
Qed.

Lemma HasTransparency_reads_alpha_only_witness :
  HasTransparency (fun a => if a mod 4 =? 3 then 255 else a) 0 2 2 8 =
  HasTransparency Example.opaque 0 2 2 8.
Proof.
  apply HasTransparency_reads_alpha_only. intros x y Hx Hy.
  assert (Ex : x = 0 \/ x = 1) by lia. assert (Ey : y = 0 \/ y = 1) by lia.
  destruct Ex as [-> | ->], Ey as [-> | ->]; reflexivity.
Defined.

(** ** [WebPSave], continued *)

Lemma configure_sets_method_and_threads
      (config : WebPConfig) (pic : WebPPicture) (params : EncodeParams) :
  thread_level (fst (configure config pic params)) = 1
  /\ cfg_method (fst (configure config pic params)) = method params.
Proof.
  unfold configure.
  destruct (SFeqb (quality params) K.float_100),
           (preset params =? K.WEBP_PRESET_PHOTO),
           (preset params =? K.WEBP_PRESET_PICTURE),
           (preset params =? K.WEBP_PRESET_DRAWING),
           (fileSize params >? 0),
           (preset params <? K.WEBP_PRESET_ICON); split; reflexivity.
Qed.

(** The picture and configuration built on lines 82-146 are prepared. *)
Lemma prepared_at_encode (params : EncodeParams) (width height : Z)
      (callback : addr) (config : WebPConfig) (pic : WebPPicture) :
  let c := fst (configure config pic params) in
  let p := set_writer WebPMemoryWrite
             (set_dimensions width height (snd (configure config pic params))) in
  prepared params width height callback c
           (if negb (callback =? nullptr)
            then set_progress callback progressFunc p else p) = true.
Proof.
  cbv zeta. unfold prepared.
  destruct (configure_sets_method_and_threads config pic params) as [-> ->].
  destruct (callback =? nullptr) eqn:Hcb; cbn; rewrite !Z.eqb_refl;
    reflexivity.
Qed.

(** X3. When the library cannot set up the encoder ([WebPConfigPreset] or
    [WebPPictureInit] fails) [WebPSave] returns the version mismatch code
    with memory and the out-parameter as they were and no resource held;
    when it is the configuration that fails, the picture is not even
    initialised. *)
Theorem WebPSave_version_mismatch
        (lib : Codec) (alloc : OutputBufferAllocFn) (bitmap : addr)
        (width height stride : Z) (params : EncodeParams) (callback : addr)
        (m : memory) (o : Z) :
  WebPConfigPreset lib (preset params) (quality params) = None
  \/ WebPPictureInit lib = None ->
  let run := WebPSave lib (Some alloc) bitmap width height stride params
                      callback (initial m o) in
  fst run = K.errVersionMismatch
  /\ mem (snd run) = m
  /\ out (snd run) = o
  /\ held MemoryWriter (log (snd run)) = false
  /\ held Picture (log (snd run)) = false
  /\ (WebPConfigPreset lib (preset params) (quality params) = None ->
      log (snd run) = [EvWebPConfigPreset false]).
Proof.
  intros H. cbv zeta. unfold_bridge. cbn [mem out log].
  destruct (WebPConfigPreset lib (preset params) (quality params)) eqn:Ec.
  - destruct H as [H|H]; [discriminate H|]. rewrite H. cbn.
    repeat split. discriminate.
  - cbn. repeat split.
Qed.

Lemma WebPSave_version_mismatch_witness :
  WebPSave Scenario.version_skew (Some Example.allocator_ok) 0 2 2 8
           (Example.params Example.float_75 K.WEBP_PRESET_PHOTO) nullptr
           (initial Example.opaque 77)
  = (K.errVersionMismatch,
     {| mem := Example.opaque; out := 77; log := [EvWebPConfigPreset false] |}).
Proof.
  destruct (WebPSave_version_mismatch Scenario.version_skew
              Example.allocator_ok 0 2 2 8
              (Example.params Example.float_75 K.WEBP_PRESET_PHOTO) nullptr
              Example.opaque 77 (or_introl eq_refl))
    as [Hr [Hm [Ho [_ [_ Hl]]]]].
  specialize (Hl eq_refl).
  destruct (WebPSave Scenario.version_skew (Some Example.allocator_ok) 0 2 2 8
              (Example.params Example.float_75 K.WEBP_PRESET_PHOTO) nullptr
              (initial Example.opaque 77)) as [r [m' o' l']].
  cbn [fst snd mem out log] in *. subst. reflexivity.
Defined.

(** X4. Once the encoder is set up, [WebPSave] attempts exactly one picture
    import, chosen by the transparency scan: the alpha-preserving BGRA
    import when the bitmap has a transparent pixel, the BGRX import (alpha
    ignored) when it has none. *)
Theorem WebPSave_import_follows_transparency
        (lib : Codec) (alloc : OutputBufferAllocFn) (bitmap : addr)
        (width height stride : Z) (params : EncodeParams) (callback : addr)
        (m : memory) (o : Z) (config : WebPConfig) (pic : WebPPicture) :
  WebPConfigPreset lib (preset params) (quality params) = Some config ->
  WebPPictureInit lib = Some pic ->
  let st' := snd (WebPSave lib (Some alloc) bitmap width height stride params
                           callback (initial m o)) in
  ((exists ok, In (EvWebPPictureImportBGRA ok) (log st')) <->
   HasTransparency m bitmap width height stride = true)
  /\ ((exists ok, In (EvWebPPictureImportBGRX ok) (log st')) <->
      HasTransparency m bitmap width height stride = false).
Proof.
  intros Hc Hp. cbv zeta. unfold_bridge. cbn [mem out log].
  rewrite Hc. cbn [is_some]. rewrite Hp.
  split_run; cbn [log snd fst app]; split;
    (split;
     [ intros [ok H]; in_log; congruence
     | intros H; try discriminate H; eexists; cbn [In]; tauto ]).
Qed.

Lemma WebPSave_import_follows_transparency_witness :
  exists ok,
    In (EvWebPPictureImportBGRA ok)
       (log (snd (WebPSave Example.healthy (Some Example.allocator_ok)
                           0 2 2 8
                           (Example.params Example.float_75 K.WEBP_PRESET_PHOTO)
                           nullptr (initial Example.corner 77)))).
Proof.
  apply (WebPSave_import_follows_transparency
           Example.healthy Example.allocator_ok 0 2 2 8
           (Example.params Example.float_75 K.WEBP_PRESET_PHOTO) nullptr
           Example.corner 77 Example.config_default Example.picture_init
           eq_refl eq_refl).
  reflexivity.
Defined.

Section SaveOutcome.

Variable lib : Codec.
Variable alloc : OutputBufferAllocFn.
Variables (bitmap : addr) (width height stride : Z).
Variables (params : EncodeParams) (callback : addr).
Variables (m : memory) (o : Z).
Variables (config : WebPConfig) (pic : WebPPicture).

Hypothesis config_ok :
  WebPConfigPreset lib (preset params) (quality params) = Some config.
Hypothesis picture_ok : WebPPictureInit lib = Some pic.
Hypothesis import_ok :
  (if HasTransparency m bitmap width height stride
   then WebPPictureImportBGRA lib
          (picture_at_import config pic params width height) bitmap stride m
   else WebPPictureImportBGRX lib
          (picture_at_import config pic params width height) bitmap stride m)
  = true.

(** The call, reduced to the encode step on the configuration and the
    picture it passes. *)
Lemma WebPSave_reaches_encode :
  WebPSave lib (Some alloc) bitmap width height stride params callback
           (initial m o)
  = encode_and_release lib alloc (fst (configure config pic params))
      (picture_at_import config pic params width height) callback
      {| mem := m; out := o;
         log := [EvWebPConfigPreset true; EvWebPPictureInit true;
                 EvWebPMemoryWriterInit;
                 if HasTransparency m bitmap width height stride
                 then EvWebPPictureImportBGRA true
                 else EvWebPPictureImportBGRX true] |}.
Proof.
  unfold WebPSave, call_WebPConfigPreset, call_WebPPictureInit,
    call_WebPPictureImportBGRA, call_WebPPictureImportBGRX,
    bind, ret, emit, get_mem, initial.
  cbn [mem out log]. rewrite config_ok. cbn [is_some]. rewrite picture_ok.
  cbn [is_some app]. revert import_ok. unfold picture_at_import.
  destruct (configure config pic params) as [c p].
  cbn [fst snd mem out log app].
  destruct (HasTransparency m bitmap width height stride);
    intros Hi; cbn [mem out log app]; rewrite Hi; reflexivity.
Qed.

End SaveOutcome.

(** X5. When the encoder fails on the configuration and the picture the
    call passes to it, [WebPSave] returns the encoder's error code
    unchanged, without calling the allocator or touching the out-parameter
    and memory, and with the writer and the picture released.  The
    configuration passed has thread level 1 and the method of the
    parameters; the picture has the width, the height and the memory
    writer set and, for a non-null callback, the progress hook registered
    with that callback. *)
Theorem WebPSave_encode_failure
        (lib : Codec) (alloc : OutputBufferAllocFn) (bitmap : addr)
        (width height stride : Z) (params : EncodeParams) (callback : addr)
        (m : memory) (o : Z) (config : WebPConfig) (pic : WebPPicture)
        (code : Z) :
  WebPConfigPreset lib (preset params) (quality params) = Some config ->
  WebPPictureInit lib = Some pic ->
  (if HasTransparency m bitmap width height stride
   then WebPPictureImportBGRA lib
          (picture_at_import config pic params width height) bitmap stride m
   else WebPPictureImportBGRX lib
          (picture_at_import config pic params width height) bitmap stride m)
  = true ->
  WebPEncode lib (fst (configure config pic params))
             (picture_at_encode config pic params width height callback) m
  = EncodeFail code ->
  let run := WebPSave lib (Some alloc) bitmap width height stride params
                      callback (initial m o) in
  fst run = code
  /\ mem (snd run) = m
  /\ out (snd run) = o
  /\ existsb is_allocation (log (snd run)) = false
  /\ held MemoryWriter (log (snd run)) = false
  /\ held Picture (log (snd run)) = false
  /\ prepared params width height callback
               (fst (configure config pic params))
               (picture_at_encode config pic params width height callback)
     = true.
Proof.
  intros Hc Hp Hi Henc. cbv zeta.
  rewrite (WebPSave_reaches_encode lib alloc bitmap width height stride
             params callback m o config pic Hc Hp Hi).
  unfold encode_and_release, call_WebPEncode, bind, ret, emit, get_mem.
  cbn [mem out log].
  change (if negb (callback =? nullptr)
          then set_progress callback progressFunc
                 (picture_at_import config pic params width height)
          else picture_at_import config pic params width height)
    with (picture_at_encode config pic params width height callback).
  rewrite Henc. cbn [fst snd mem out log].
  destruct (HasTransparency m bitmap width height stride);
    repeat split; try reflexivity; apply prepared_at_encode.
Qed.

Lemma WebPSave_encode_failure_witness :
  fst (WebPSave Scenario.lossless_only (Some Example.allocator_ok) 0 2 2 8
                (Example.params Example.float_75 K.WEBP_PRESET_PHOTO) 600
                (initial Example.corner 77)) = 4.
Proof.
  apply (WebPSave_encode_failure
           Scenario.lossless_only Example.allocator_ok 0 2 2 8
           (Example.params Example.float_75 K.WEBP_PRESET_PHOTO) 600
           Example.corner 77 Example.config_default Example.picture_init 4
           eq_refl eq_refl eq_refl eq_refl).
Defined.

(** X6. When the encoder succeeds, on the configuration and the picture
    the call passes to it, with [wrt_size] bytes at [wrt_mem] and the
    allocator returns a buffer, [WebPSave] returns 0, leaves the buffer's
    address in the out-parameter and the encoded bytes in the buffer, byte
    for byte, changes no other byte of the memory the encoder left, and
    releases the writer and the picture.  The allocator is asked for
    exactly [wrt_size] bytes. *)
Theorem WebPSave_delivers_encoded_bytes
        (lib : Codec) (alloc : OutputBufferAllocFn) (bitmap : addr)
        (width height stride : Z) (params : EncodeParams) (callback : addr)
        (m : memory) (o : Z) (config : WebPConfig) (pic : WebPPicture)
        (after : memory) (wrt_mem : addr) (wrt_size : Z) :
  WebPConfigPreset lib (preset params) (quality params) = Some config ->
  WebPPictureInit lib = Some pic ->
  (if HasTransparency m bitmap width height stride
   then WebPPictureImportBGRA lib
          (picture_at_import config pic params width height) bitmap stride m
   else WebPPictureImportBGRX lib
          (picture_at_import config pic params width height) bitmap stride m)
  = true ->
  WebPEncode lib (fst (configure config pic params))
             (picture_at_encode config pic params width height callback) m
  = EncodeOk after wrt_mem wrt_size ->
  alloc wrt_size <> nullptr ->
  wrt_size = 0 \/ wrt_mem <> nullptr ->
  let run := WebPSave lib (Some alloc) bitmap width height stride params
                      callback (initial m o) in
  fst run = 0
  /\ out (snd run) = alloc wrt_size
  /\ (forall i, 0 <= i < wrt_size ->
        mem (snd run) (alloc wrt_size + i) = after (wrt_mem + i))
  /\ (forall a, ~ (alloc wrt_size <= a < alloc wrt_size + wrt_size) ->
        mem (snd run) a = after a)
  /\ filter is_allocation (log (snd run)) =
       [EvOutputAllocator wrt_size (alloc wrt_size)]
  /\ held MemoryWriter (log (snd run)) = false
  /\ held Picture (log (snd run)) = false.
Proof.
  intros Hc Hp Himp Henc Hbuf Hsrc. cbv zeta.
  rewrite (WebPSave_reaches_encode lib alloc bitmap width height stride
             params callback m o config pic Hc Hp Himp).
  clear Himp.
  set (l := [EvWebPConfigPreset true; EvWebPPictureInit true;
             EvWebPMemoryWriterInit;
             if HasTransparency m bitmap width height stride
             then EvWebPPictureImportBGRA true
             else EvWebPPictureImportBGRX true]).
  assert (Hl : l = [EvWebPConfigPreset true; EvWebPPictureInit true;
                    EvWebPMemoryWriterInit;
                    if HasTransparency m bitmap width height stride
                    then EvWebPPictureImportBGRA true
                    else EvWebPPictureImportBGRX true]) by reflexivity.
  clearbody l.
  unfold encode_and_release, call_WebPEncode, call_allocator,
    memcpy_s, bind, ret, emit, get_mem, put_mem, load_out, store_out.
  cbn [mem out log].
  change (if negb (callback =? nullptr)
          then set_progress callback progressFunc
                 (picture_at_import config pic params width height)
          else picture_at_import config pic params width height)
    with (picture_at_encode config pic params width height callback).
  rewrite Henc. cbn [fst snd mem out log].
  apply Z.eqb_neq in Hbuf. rewrite Hbuf. cbn [negb fst snd mem out log].
  assert (Hlog : forall tl,
            filter is_allocation (l ++ tl) = filter is_allocation tl).
  { intros tl. subst l.
    destruct (HasTransparency m bitmap width height stride); reflexivity. }
  assert (Hheld : forall r tl, r <> Mux ->
            held r (l ++ EvWebPEncode true :: tl ++
                      [EvWebPMemoryWriterClear; EvWebPPictureFree]) = false).
  { intros r tl Hr. unfold held. rewrite fold_left_app. cbn [fold_left].
    rewrite fold_left_app. cbn [fold_left].
    destruct r; [reflexivity | reflexivity | contradiction]. }
  destruct (wrt_size =? 0) eqn:Hz; cbn [fst snd mem out log].
  - apply Z.eqb_eq in Hz. subst wrt_size.
    split; [reflexivity|]. split; [reflexivity|].
    split; [intros i Hi; lia|]. split; [reflexivity|].
    split; [|split].
    + rewrite <- !app_assoc. rewrite Hlog. reflexivity.
    + rewrite <- !app_assoc. apply (Hheld MemoryWriter [_; _; _]); discriminate.
    + rewrite <- !app_assoc. apply (Hheld Picture [_; _; _]); discriminate.
  - destruct Hsrc as [Hsrc|Hsrc]; [subst; discriminate Hz|].
    apply Z.eqb_neq in Hsrc. rewrite Hsrc, Z.ltb_irrefl.
    cbn [orb fst snd mem out log].
    split; [reflexivity|]. split; [reflexivity|].
    split; [|split; [|split; [|split]]].
    + intros i Hi. unfold copy_bytes, in_block.
      replace ((alloc wrt_size <=? alloc wrt_size + i)
               && (alloc wrt_size + i <? alloc wrt_size + wrt_size))
        with true by (symmetry; apply andb_true_iff; split;
                      [apply Z.leb_le | apply Z.ltb_lt]; lia).
      f_equal. lia.
    + intros a Ha'. unfold copy_bytes, in_block.
      replace ((alloc wrt_size <=? a) && (a <? alloc wrt_size + wrt_size))
        with false; [reflexivity|].
      symmetry. apply andb_false_iff.
      destruct (Z.leb_spec (alloc wrt_size) a); [right|left; reflexivity].
      apply Z.ltb_ge. lia.
    + rewrite <- !app_assoc. rewrite Hlog. reflexivity.
    + rewrite <- !app_assoc. apply (Hheld MemoryWriter [_; _; _]); discriminate.
    + rewrite <- !app_assoc. apply (Hheld Picture [_; _; _]); discriminate.
Qed.

Lemma WebPSave_delivers_encoded_bytes_witness :
  let params := Example.params K.float_100 K.WEBP_PRESET_DRAWING in
  let run := WebPSave Scenario.lossless_only (Some Example.allocator_ok)
                      0 2 2 8 params nullptr (initial Example.opaque 77) in
  fst run = 0 /\ out (snd run) = 4096 /\ mem (snd run) (4096 + 10) = 10.
Proof.
  cbv zeta.
  destruct (WebPSave_delivers_encoded_bytes
              Scenario.lossless_only Example.allocator_ok 0 2 2 8
              (Example.params K.float_100 K.WEBP_PRESET_DRAWING) nullptr
              Example.opaque 77 Example.config_default Example.picture_init
              Scenario.encoded 8192 64 eq_refl eq_refl eq_refl eq_refl)
    as [Hr [Ho [Hb _]]].
  - discriminate.
  - right. discriminate.
  - split; [exact Hr|]. split; [exact Ho|]. apply (Hb 10). lia.
Defined.

(** X7. [WebPSave] returns with the memory writer and the picture still
    held exactly when a picture import failed; on every other path (null
    allocator, version mismatch, failed or successful encode, allocator
    failure) nothing is held at the return. *)
Theorem WebPSave_holds_resources_iff_import_failed
        (lib : Codec) (outputAllocator : option OutputBufferAllocFn)
        (bitmap : addr) (width height stride : Z) (params : EncodeParams)
        (callback : addr) (m : memory) (o : Z) :
  let st' := snd (WebPSave lib outputAllocator bitmap width height stride
                           params callback (initial m o)) in
  held MemoryWriter (log st') = existsb is_failed_import (log st')
  /\ held Picture (log st') = existsb is_failed_import (log st').
Proof.
  cbv zeta. destruct outputAllocator as [alloc|]; [|split; reflexivity].
  unfold_bridge. split_run; cbn [log snd fst app]; unfold held;
    cbn [fold_left acquires releases existsb is_failed_import orb];
    repeat match goal with
      | H : negb _ = _ |- _ => rewrite ?H; clear H
      end;
    split; reflexivity.
Qed.

(** X8. In a call of [WebPSave] in which the encoder succeeded, the
    allocator is called exactly once, the pointer it returned is what the
    out-parameter holds at the return, and the result is 0 when that
    pointer is non-null and VP8_ENC_ERROR_OUT_OF_MEMORY when it is null. *)
Theorem WebPSave_result_after_encode
        (lib : Codec) (outputAllocator : option OutputBufferAllocFn)
        (bitmap : addr) (width height stride : Z) (params : EncodeParams)
        (callback : addr) (m : memory) (o : Z) :
  let run := WebPSave lib outputAllocator bitmap width height stride params
                      callback (initial m o) in
  In (EvWebPEncode true) (log (snd run)) ->
  count is_allocation (log (snd run)) = 1%nat
  /\ (exists n, In (EvOutputAllocator n (out (snd run))) (log (snd run)))
  /\ (out (snd run) <> nullptr -> fst run = 0)
  /\ (out (snd run) = nullptr -> fst run = K.VP8_ENC_ERROR_OUT_OF_MEMORY).
Proof.
  cbv zeta. destruct outputAllocator as [alloc|]; [|intros []].
  destruct (WebPSave lib (Some alloc) bitmap width height stride params
                     callback (initial m o)) as [r st'] eqn:E.
  cbn [fst snd]. unfold_bridge. split_run; intros H;
    try (exfalso; in_log; bool_clash);
    (split; [reflexivity|]);
    (split; [eexists; cbn [In]; tauto|]);
    repeat match goal with
      | H : negb _ = true |- _ => apply negb_true_iff in H
      | H : negb _ = false |- _ => apply negb_false_iff in H
      end;
    repeat match goal with
      | H : (_ =? nullptr) = true |- _ => apply Z.eqb_eq in H
      | H : (_ =? nullptr) = false |- _ => apply Z.eqb_neq in H
      end;
    (split; intros Ho; first [reflexivity | contradiction | congruence]).
Qed.

Lemma WebPSave_result_after_encode_witness :
  fst (WebPSave Example.healthy (Some Example.allocator_ok) 0 2 2 8
                (Example.params Example.float_75 K.WEBP_PRESET_PHOTO) nullptr
                (initial Example.opaque 77)) = 0.
Proof.
  destruct (WebPSave_result_after_encode
              Example.healthy (Some Example.allocator_ok) 0 2 2 8
              (Example.params Example.float_75 K.WEBP_PRESET_PHOTO) nullptr
              Example.opaque 77) as [_ [_ [H _]]].
  - vm_compute. tauto.
  - apply H. vm_compute. discriminate.
Defined.

(** ** [SetMetaData], continued *)

Ltac mux_codes :=
  repeat match goal with
    | |- context [?a =? K.WEBP_MUX_OK] =>
        let E := fresh "E" in
        destruct (a =? K.WEBP_MUX_OK) eqn:E; cbn [andb orb negb] in *
    end.

Ltac open_cases :=
  repeat match goal with
    | H : exists _, _ |- _ => destruct H
    | H : _ \/ _ |- _ => destruct H
    end.

(** X9. [SetMetaData] returns with the multiplexer still held exactly when
    [WebPMuxSetImage] or a [WebPMuxSetChunk] failed; when the multiplexer
    could not be created, when assembly was reached (whatever its result)
    and when the allocator is null, nothing is held at the return. *)
Theorem SetMetaData_holds_mux_iff_set_failed
        (lib : Codec) (image : addr) (imageSize : Z)
        (outputAllocator : option OutputBufferAllocFn)
        (metaData : MetaDataParams) (m : memory) (o : Z) :
  let st' := snd (SetMetaData lib image imageSize outputAllocator metaData
                              (initial m o)) in
  held Mux (log st') = existsb is_failed_set (log st').
Proof.
  cbv zeta. destruct outputAllocator as [alloc|]; [|reflexivity].
  destruct (SetMetaData lib image imageSize (Some alloc) metaData
                        (initial m o)) as [r st'] eqn:E.
  cbn [snd]. unfold_bridge. split_run; cbn [log snd fst app]; unfold held;
    cbn [fold_left acquires releases existsb is_failed_set orb];
    repeat match goal with
      | H : (WebPMuxNew lib =? nullptr) = _ |- _ => rewrite H; clear H
      end;
    cbn [negb]; mux_codes; try discriminate; try reflexivity.
Qed.

(** X10. [SetMetaData] returns the code of the first library call that
    fails: when [WebPMuxSetImage], a [WebPMuxSetChunk] or [WebPMuxAssemble]
    returned a code other than WEBP_MUX_OK, that code is the result, the
    allocator is not called and the out-parameter is left as it was; after
    a failed set, assembly is not attempted. *)
Theorem SetMetaData_returns_first_failure
        (lib : Codec) (image : addr) (imageSize : Z)
        (outputAllocator : option OutputBufferAllocFn)
        (metaData : MetaDataParams) (m : memory) (o : Z) (e : Z) :
  let run := SetMetaData lib image imageSize outputAllocator metaData
                         (initial m o) in
  In (EvWebPMuxSetImage e) (log (snd run))
  \/ (exists fourcc, In (EvWebPMuxSetChunk fourcc e) (log (snd run)))
  \/ In (EvWebPMuxAssemble e) (log (snd run)) ->
  e <> K.WEBP_MUX_OK ->
  fst run = e
  /\ existsb is_allocation (log (snd run)) = false
  /\ out (snd run) = o
  /\ (In (EvWebPMuxAssemble e) (log (snd run))
      \/ forall e', ~ In (EvWebPMuxAssemble e') (log (snd run))).
Proof.
  cbv zeta. destruct outputAllocator as [alloc|];
    [|intros [[]|[[f []]|[]]]].
  destruct (SetMetaData lib image imageSize (Some alloc) metaData
                        (initial m o)) as [r st'] eqn:E.
  cbn [fst snd]. unfold_bridge. split_run; intros H Hne;
    repeat match goal with
      | H : _ && _ = true |- _ => apply andb_prop in H; destruct H
      end;
    repeat match goal with
      | H : (_ =? K.WEBP_MUX_OK) = true |- _ => apply Z.eqb_eq in H
      end;
    first
      [ solve [exfalso; open_cases; in_log; congruence]
      | split;
        [ open_cases; in_log; congruence
        | split; [reflexivity|]; split; [reflexivity|];
          first
            [ solve [right; intros e' He'; in_log]
            | open_cases; in_log;
              first [congruence | left; cbn [In]; tauto] ] ] ].
Qed.

Lemma SetMetaData_returns_first_failure_witness :
  fst (SetMetaData Example.chunk_rejected 16384 64 (Some Example.allocator_ok)
                   Example.exif_only (initial Example.opaque 77))
  = K.WEBP_MUX_MEMORY_ERROR.
Proof.
  apply (SetMetaData_returns_first_failure
           Example.chunk_rejected 16384 64 (Some Example.allocator_ok)
           Example.exif_only Example.opaque 77 K.WEBP_MUX_MEMORY_ERROR).
  - right. left. exists "EXIF"%string. vm_compute. tauto.
  - discriminate.
Defined.

Section InjectOutcome.

Variable lib : Codec.
Variable alloc : OutputBufferAllocFn.
Variables (image : addr) (imageSize : Z) (metaData : MetaDataParams).
Variables (m : memory) (o : Z).

Hypothesis mux_ok : WebPMuxNew lib <> nullptr.
Hypothesis image_ok :
  WebPMuxSetImage lib (WebPMuxNew lib)
                  {| bytes := image; size := imageSize |} 0 = K.WEBP_MUX_OK.
Hypothesis chunks_ok :
  forall fourcc d,
    In fourcc (wanted_chunks metaData) ->
    chunk_payload metaData fourcc = Some d ->
    WebPMuxSetChunk lib (WebPMuxNew lib) fourcc d 1 = K.WEBP_MUX_OK.

(** The call, reduced to the answer of the assembly. *)
Lemma SetMetaData_reaches_assemble :
  exists l,
    chunk_codes l = wanted_chunks metaData
    /\ held Mux l = true
    /\ existsb is_failed_set l = false
    /\ filter is_allocation l = []
    /\ SetMetaData lib image imageSize (Some alloc) metaData (initial m o)
       = (r <- call_WebPMuxAssemble lib (WebPMuxNew lib) ;;
          let (error, assembledData) := r in
          emit (EvWebPMuxDelete (WebPMuxNew lib)) ;;
          if error =? K.WEBP_MUX_OK then
            p <- call_allocator alloc (size assembledData) ;;
            store_out p ;;
            o <- load_out ;;
            let error :=
              if o =? nullptr then K.WEBP_MUX_MEMORY_ERROR else error in
            (if error =? K.WEBP_MUX_OK then
               memcpy_s o (size assembledData) (bytes assembledData)
                        (size assembledData) ;; ret tt
             else ret tt) ;;
            emit EvWebPDataClear ;;
            ret error
          else ret error) {| mem := m; out := o; log := l |}.
Proof.
  assert (Hicc : (iccProfileSize metaData >? 0) = true ->
            WebPMuxSetChunk lib (WebPMuxNew lib) "ICCP"
              {| bytes := iccProfile metaData;
                 size := iccProfileSize metaData |} 1 = K.WEBP_MUX_OK).
  { intros H. apply chunks_ok; [|reflexivity].
    unfold wanted_chunks. rewrite H. left. reflexivity. }
  assert (Hexif : (exifSize metaData >? 0) = true ->
            WebPMuxSetChunk lib (WebPMuxNew lib) "EXIF"
              {| bytes := exif metaData; size := exifSize metaData |} 1
            = K.WEBP_MUX_OK).
  { intros H. apply chunks_ok; [|reflexivity].
    unfold wanted_chunks. apply in_or_app. right. apply in_or_app. left.
    rewrite H. left. reflexivity. }
  assert (Hxmp : (xmpSize metaData >? 0) = true ->
            WebPMuxSetChunk lib (WebPMuxNew lib) "XMP "
              {| bytes := xmp metaData; size := xmpSize metaData |} 1
            = K.WEBP_MUX_OK).
  { intros H. apply chunks_ok; [|reflexivity].
    unfold wanted_chunks. apply in_or_app. right. apply in_or_app. right.
    rewrite H. left. reflexivity. }
  apply Z.eqb_neq in mux_ok.
  unfold SetMetaData, call_WebPMuxNew, call_WebPMuxSetImage,
    call_WebPMuxSetChunk, wanted_chunks.
  unfold bind at 1. unfold emit at 1, ret at 1, initial. cbn [mem out log app].
  unfold bind at 1. unfold ret at 1. rewrite mux_ok.
  unfold bind at 1. unfold bind at 1. unfold emit at 1, ret at 1.
  cbn [mem out log app]. rewrite image_ok. cbn [Z.eqb Pos.eqb].
  unfold bind at 1.
  destruct (iccProfileSize metaData >? 0) eqn:Ei;
    [unfold bind at 1; unfold emit at 1, ret at 1; rewrite (Hicc eq_refl)
    |unfold ret at 1];
    cbn [mem out log app Z.eqb Pos.eqb andb];
    unfold bind at 1;
    (destruct (exifSize metaData >? 0) eqn:Ee;
     [unfold bind at 1; unfold emit at 1, ret at 1; rewrite (Hexif eq_refl)
     |unfold ret at 1]);
    cbn [mem out log app Z.eqb Pos.eqb andb];
    unfold bind at 1;
    (destruct (xmpSize metaData >? 0) eqn:Ex;
     [unfold bind at 1; unfold emit at 1, ret at 1; rewrite (Hxmp eq_refl)
     |unfold ret at 1]);
    cbn [mem out log app Z.eqb Pos.eqb andb];
    eexists; (split; [|split; [|split; [|split; [|reflexivity]]]]);
    cbn [log mem out app]; cbn [chunk_codes app]; unfold held;
    cbn [fold_left acquires releases existsb is_failed_set orb];
    rewrite ?mux_ok; reflexivity.
Qed.

End InjectOutcome.

Lemma chunk_codes_app (l1 l2 : list Event) :
  chunk_codes (l1 ++ l2) = chunk_codes l1 ++ chunk_codes l2.
Proof.
  induction l1 as [|e l1 IH]; [reflexivity|].
  destruct e; cbn [app chunk_codes]; rewrite IH; reflexivity.
Qed.

Lemma copy_bytes_inside (m : memory) (dest src count i : Z) :
  0 <= i < count -> copy_bytes m dest src count (dest + i) = m (src + i).
Proof.
  intros H. unfold copy_bytes, in_block.
  replace ((dest <=? dest + i) && (dest + i <? dest + count)) with true
    by (symmetry; apply andb_true_iff; split;
        [apply Z.leb_le | apply Z.ltb_lt]; lia).
  f_equal. lia.
Qed.

Lemma copy_bytes_outside (m : memory) (dest src count a : Z) :
  ~ (dest <= a < dest + count) -> copy_bytes m dest src count a = m a.
Proof.
  intros H. unfold copy_bytes, in_block.
  replace ((dest <=? a) && (a <? dest + count)) with false; [reflexivity|].
  symmetry. apply andb_false_iff.
  destruct (Z.leb_spec dest a); [right | left; reflexivity].
  apply Z.ltb_ge. lia.
Qed.

Lemma zero_bytes_outside (m : memory) (dest len a : Z) :
  ~ (dest <= a < dest + len) -> zero_bytes m dest len a = m a.
Proof.
  intros H. unfold zero_bytes, in_block.
  replace ((dest <=? a) && (a <? dest + len)) with false; [reflexivity|].
  symmetry. apply andb_false_iff.
  destruct (Z.leb_spec dest a); [right | left; reflexivity].
  apply Z.ltb_ge. lia.
Qed.

Lemma fold_held_stays_released (r : Resource) (tl : list Event) :
  forallb (fun e => negb (acquires r e)) tl = true ->
  fold_left (fun h e => if acquires r e then true
                        else if releases r e then false else h) tl false
  = false.
Proof.
  induction tl as [|x tl IH]; intros H; [reflexivity|].
  cbn [forallb] in H. apply andb_prop in H. destruct H as [Hx Htl].
  cbn [fold_left]. apply negb_true_iff in Hx. rewrite Hx.
  destruct (releases r x); apply IH; exact Htl.
Qed.

Lemma held_Mux_after_delete (l tl : list Event) (e : Z) (mux : addr) :
  forallb (fun e => negb (acquires Mux e)) tl = true ->
  held Mux (l ++ EvWebPMuxAssemble e :: EvWebPMuxDelete mux :: tl) = false.
Proof.
  intros H. unfold held. rewrite fold_left_app.
  change (EvWebPMuxAssemble e :: EvWebPMuxDelete mux :: tl)
    with ([EvWebPMuxAssemble e; EvWebPMuxDelete mux] ++ tl).
  rewrite fold_left_app.
  exact (fold_held_stays_released Mux tl H).
Qed.

(** X11. When the multiplexer accepts the image and each chunk the bundle
    carries (the kinds whose size is not 0; nothing is asked of the
    others), [SetMetaData] attaches exactly those kinds, in the order ICCP,
    EXIF, XMP, then assembles and deletes the multiplexer.  The image is
    set from the caller's bytes without copying (copy flag 0) and each
    chunk with the pointer and size of the bundle and the copy flag 1. *)
Theorem SetMetaData_attaches_wanted_chunks
        (lib : Codec) (alloc : OutputBufferAllocFn) (image : addr)
        (imageSize : Z) (metaData : MetaDataParams) (m : memory) (o : Z) :
  WebPMuxNew lib <> nullptr ->
  WebPMuxSetImage lib (WebPMuxNew lib)
                  {| bytes := image; size := imageSize |} 0 = K.WEBP_MUX_OK ->
  (forall fourcc d,
     In fourcc (wanted_chunks metaData) ->
     chunk_payload metaData fourcc = Some d ->
     WebPMuxSetChunk lib (WebPMuxNew lib) fourcc d 1 = K.WEBP_MUX_OK) ->
  let st' := snd (SetMetaData lib image imageSize (Some alloc) metaData
                              (initial m o)) in
  chunk_codes (log st') = wanted_chunks metaData
  /\ (exists e, In (EvWebPMuxAssemble e) (log st'))
  /\ held Mux (log st') = false.
Proof.
  intros Hmux Himg Hchunks. cbv zeta.
  destruct (SetMetaData_reaches_assemble lib alloc image imageSize metaData
              m o Hmux Himg Hchunks) as [l [Hc [_ [_ [_ Hrun]]]]].
  rewrite Hrun. clear Hrun.
  destruct ((r <- call_WebPMuxAssemble lib (WebPMuxNew lib) ;; _)
              {| mem := m; out := o; log := l |}) as [r st'] eqn:E.
  cbn [snd]. unfold_bridge. split_run;
    cbn [log]; rewrite <- ?app_assoc; cbn [app];
    (split; [rewrite chunk_codes_app, Hc; cbn [chunk_codes];
             apply app_nil_r|]);
    (split; [eexists; apply in_or_app; right; left; reflexivity|]);
    apply held_Mux_after_delete; reflexivity.
Qed.

Lemma SetMetaData_attaches_wanted_chunks_witness :
  chunk_codes
    (log (snd (SetMetaData Scenario.wary_mux 16384 64
                           (Some Example.allocator_ok) Example.exif_only
                           (initial Example.opaque 77))))
  = ["EXIF"%string].
Proof.
  apply (SetMetaData_attaches_wanted_chunks
           Scenario.wary_mux Example.allocator_ok 16384 64 Example.exif_only
           Example.opaque 77).
  - discriminate.
  - reflexivity.
  - intros fourcc d [<- | []] H. inversion H. reflexivity.
Defined.

(** X12. When the multiplexer accepts the image and each chunk the bundle
    carries (the kinds whose size is not 0), assembly
    succeeds with [size] bytes at [bytes] and the allocator returns a
    buffer, [SetMetaData] returns WEBP_MUX_OK, leaves the buffer's address
    in the out-parameter and the assembled container in the buffer, byte
    for byte, changes no other byte of the memory the assembly left, asks
    the allocator once, for exactly [size] bytes, and clears the assembled
    data. *)
Theorem SetMetaData_delivers_container
        (lib : Codec) (alloc : OutputBufferAllocFn) (image : addr)
        (imageSize : Z) (metaData : MetaDataParams) (m : memory) (o : Z)
        (assembled : WebPData) (after : memory) :
  WebPMuxNew lib <> nullptr ->
  WebPMuxSetImage lib (WebPMuxNew lib)
                  {| bytes := image; size := imageSize |} 0 = K.WEBP_MUX_OK ->
  (forall fourcc d,
     In fourcc (wanted_chunks metaData) ->
     chunk_payload metaData fourcc = Some d ->
     WebPMuxSetChunk lib (WebPMuxNew lib) fourcc d 1 = K.WEBP_MUX_OK) ->
  WebPMuxAssemble lib (WebPMuxNew lib) m = (K.WEBP_MUX_OK, assembled, after) ->
  alloc (size assembled) <> nullptr ->
  size assembled = 0 \/ bytes assembled <> nullptr ->
  let run := SetMetaData lib image imageSize (Some alloc) metaData
                         (initial m o) in
  let buffer := alloc (size assembled) in
  fst run = K.WEBP_MUX_OK
  /\ out (snd run) = buffer
  /\ (forall i, 0 <= i < size assembled ->
        mem (snd run) (buffer + i) = after (bytes assembled + i))
  /\ (forall a, ~ (buffer <= a < buffer + size assembled) ->
        mem (snd run) a = after a)
  /\ filter is_allocation (log (snd run)) =
       [EvOutputAllocator (size assembled) buffer]
  /\ In EvWebPDataClear (log (snd run)).
Proof.
  intros Hmux Himg Hchunks Hasm Hbuf Hsrc. cbv zeta.
  destruct (SetMetaData_reaches_assemble lib alloc image imageSize metaData
              m o Hmux Himg Hchunks) as [l [_ [_ [_ [Hl Hrun]]]]].
  rewrite Hrun. clear Hrun.
  unfold call_WebPMuxAssemble, call_allocator, memcpy_s, bind, ret, emit,
    get_mem, put_mem, load_out, store_out.
  cbn [mem out log]. rewrite Hasm. cbn [fst snd mem out log].
  change (K.WEBP_MUX_OK =? K.WEBP_MUX_OK) with true. cbn iota.
  cbn [fst snd mem out log].
  apply Z.eqb_neq in Hbuf. rewrite Hbuf.
  change (K.WEBP_MUX_OK =? K.WEBP_MUX_OK) with true. cbn iota.
  cbn [fst snd mem out log].
  destruct (size assembled =? 0) eqn:Hz; cbn [fst snd mem out log].
  - apply Z.eqb_eq in Hz.
    split; [reflexivity|]. split; [reflexivity|].
    split; [intros i Hi; lia|]. split; [reflexivity|]. split.
    + rewrite <- !app_assoc, filter_app, Hl. reflexivity.
    + apply in_or_app. right. left. reflexivity.
  - destruct Hsrc as [Hsrc|Hsrc]; [rewrite Hsrc in Hz; discriminate Hz|].
    apply Z.eqb_neq in Hsrc. rewrite Hsrc, Z.ltb_irrefl.
    cbn [orb fst snd mem out log].
    split; [reflexivity|]. split; [reflexivity|].
    split; [intros i Hi; now apply copy_bytes_inside|].
    split; [intros a Ha; now apply copy_bytes_outside|]. split.
    + rewrite <- !app_assoc, filter_app, Hl. reflexivity.
    + apply in_or_app. right. left. reflexivity.
Qed.

Lemma SetMetaData_delivers_container_witness :
  let run := SetMetaData Scenario.wary_mux 16384 64
                         (Some Example.allocator_ok) Example.exif_only
                         (initial Example.opaque 77) in
  fst run = K.WEBP_MUX_OK
  /\ out (snd run) = 4096
  /\ mem (snd run) (4096 + 63) = 63.
Proof.
  cbv zeta.
  destruct (SetMetaData_delivers_container
              Scenario.wary_mux Example.allocator_ok 16384 64
              Example.exif_only Example.opaque 77
              {| bytes := 8192; size := 64 |} Scenario.encoded)
    as [Hr [Ho [Hb _]]].
  - discriminate.
  - reflexivity.
  - intros fourcc d [<- | []] H. inversion H. reflexivity.
  - reflexivity.
  - discriminate.
  - right. discriminate.
  - split; [exact Hr|]. split; [exact Ho|]. apply (Hb 63). cbn. lia.
Defined.

(** X13. [SetMetaData] returns WEBP_MUX_OK only when the container was
    delivered: assembly succeeded, the out-parameter holds the non-null
    pointer the allocator returned, the copy into it was issued, the
    assembled data was cleared and the multiplexer is released. *)
Theorem SetMetaData_ok_means_delivered
        (lib : Codec) (image : addr) (imageSize : Z)
        (outputAllocator : option OutputBufferAllocFn)
        (metaData : MetaDataParams) (m : memory) (o : Z) :
  let run := SetMetaData lib image imageSize outputAllocator metaData
                         (initial m o) in
  fst run = K.WEBP_MUX_OK ->
  out (snd run) <> nullptr
  /\ In (EvWebPMuxAssemble K.WEBP_MUX_OK) (log (snd run))
  /\ (exists n, In (EvOutputAllocator n (out (snd run))) (log (snd run)))
  /\ (exists n src, In (Ev_memcpy_s (out (snd run)) n src n) (log (snd run)))
  /\ In EvWebPDataClear (log (snd run))
  /\ held Mux (log (snd run)) = false.
Proof.
  cbv zeta. destruct outputAllocator as [alloc|]; [|discriminate].
  destruct (SetMetaData lib image imageSize (Some alloc) metaData
                        (initial m o)) as [r st'] eqn:E.
  cbn [fst snd]. unfold_bridge. split_run; intros Hr;
    repeat match goal with
      | H : _ && _ = true |- _ => apply andb_prop in H; destruct H
      end;
    repeat match goal with
      | H : (_ =? _) = true |- _ => apply Z.eqb_eq in H
      | H : (_ =? _) = false |- _ => apply Z.eqb_neq in H
      end;
    try discriminate; try congruence;
    cbn [log out app fst snd];
    (split; [assumption|]);
    (split; [subst; cbn [In]; tauto|]);
    (split; [eexists; cbn [In]; tauto|]);
    (split; [eexists; eexists; cbn [In]; tauto|]);
    (split; [cbn [In]; tauto|]);
    unfold held; cbn [fold_left acquires releases]; reflexivity.
Qed.

Lemma SetMetaData_ok_means_delivered_witness :
  out (snd (SetMetaData Example.healthy 16384 64 (Some Example.allocator_ok)
                        Example.exif_only (initial Example.opaque 77)))
  <> nullptr.
Proof.
  assert (Hr : fst (SetMetaData Example.healthy 16384 64
                                (Some Example.allocator_ok) Example.exif_only
                                (initial Example.opaque 77)) = K.WEBP_MUX_OK)
    by (vm_compute; reflexivity).
  exact (proj1 (SetMetaData_ok_means_delivered
                  Example.healthy 16384 64 (Some Example.allocator_ok)
                  Example.exif_only Example.opaque 77 Hr)).
Defined.

(** X14. After a failed [WebPMuxSetChunk], [SetMetaData] sets no further
    chunk: the failing kind is the last one in the log. *)
Theorem SetMetaData_stops_at_failed_chunk
        (lib : Codec) (image : addr) (imageSize : Z)
        (outputAllocator : option OutputBufferAllocFn)
        (metaData : MetaDataParams) (m : memory) (o : Z)
        (fourcc : string) (e : Z) :
  let st' := snd (SetMetaData lib image imageSize outputAllocator metaData
                              (initial m o)) in
  In (EvWebPMuxSetChunk fourcc e) (log st') ->
  e <> K.WEBP_MUX_OK ->
  exists before, chunk_codes (log st') = before ++ [fourcc].
Proof.
  cbv zeta. destruct outputAllocator as [alloc|]; [|intros []].
  destruct (SetMetaData lib image imageSize (Some alloc) metaData
                        (initial m o)) as [r st'] eqn:E.
  cbn [snd]. unfold_bridge. split_run; intros H Hne;
    repeat match goal with
      | H : _ && _ = true |- _ => apply andb_prop in H; destruct H
      end;
    repeat match goal with
      | H : (_ =? K.WEBP_MUX_OK) = true |- _ => apply Z.eqb_eq in H
      end;
    in_log; try congruence; cbn [chunk_codes];
    first [ exists []; reflexivity
          | eexists [_]; reflexivity
          | eexists [_; _]; reflexivity ].
Qed.

Lemma SetMetaData_stops_at_failed_chunk_witness :
  exists before,
    chunk_codes
      (log (snd (SetMetaData Example.chunk_rejected 16384 64
                             (Some Example.allocator_ok) Scenario.all_metadata
                             (initial Example.opaque 77))))
    = before ++ ["ICCP"%string].
Proof.
  apply (SetMetaData_stops_at_failed_chunk
           Example.chunk_rejected 16384 64 (Some Example.allocator_ok)
           Scenario.all_metadata Example.opaque 77 "ICCP"
           K.WEBP_MUX_MEMORY_ERROR).
  - vm_compute. tauto.
  - discriminate.
Defined.

(** ** Reading metadata, continued *)

Ltac kind_cases H :=
  unfold kind_chunk in H;
  repeat match type of H with
    | context [?t =? ?k] =>
        let E := fresh "Ek" in destruct (t =? k) eqn:E
    end;
  try discriminate H; inversion H; subst; clear H.

(** X15. When the container opens, the kind's flag is set and the container
    holds a chunk of the kind, [GetMetaDataSize] leaves the chunk's size,
    truncated to 32 bits, in [*outSize] (the size itself when it is below
    2^32) and does not write to memory. *)
Theorem GetMetaDataSize_present
        (lib : Codec) (data : addr) (dataSize : Z) (type : Z) (m : memory)
        (o : Z) (demux : WebPDemuxer) (flag : Z) (fourcc : string)
        (c : WebPData) :
  WebPDemux lib {| bytes := data; size := dataSize |} m = Some demux ->
  kind_chunk type = Some (flag, fourcc) ->
  Z.land (format_flags demux) flag <> 0 ->
  find_chunk demux fourcc 1 = Some c ->
  let st' := snd (GetMetaDataSize lib data dataSize type (initial m o)) in
  out st' = size c mod 2 ^ 32
  /\ (0 <= size c < 2 ^ 32 -> out st' = size c)
  /\ mem st' = m.
Proof.
  intros Hd Hk Hf Hc. cbv zeta. apply Z.eqb_neq in Hf.
  assert (Hgoal : out (snd (GetMetaDataSize lib data dataSize type
                                            (initial m o)))
                  = size c mod 2 ^ 32
                  /\ mem (snd (GetMetaDataSize lib data dataSize type
                                               (initial m o))) = m).
  { kind_cases Hk; unfold_bridge; cbn [mem out log]; rewrite Hd;
      cbn [is_some fst snd mem out log]; rewrite ?Ek, ?Ek0, ?Ek1, Hf;
      cbn [negb]; rewrite Hc; split; reflexivity. }
  destruct Hgoal as [Ho Hm]. split; [exact Ho|]. split; [|exact Hm].
  intros Hr. rewrite Ho. now apply Z.mod_small.
Qed.

Lemma GetMetaDataSize_present_witness :
  out (snd (GetMetaDataSize (Scenario.reader Scenario.exif_container)
                            16384 64 K.EXIF (initial Example.opaque 77))) = 16
  /\ out (snd (GetMetaDataSize (Scenario.reader Scenario.huge_container)
                               16384 64 K.EXIF (initial Example.opaque 77)))
     = 5.
Proof.
  split.
  - apply (GetMetaDataSize_present
             (Scenario.reader Scenario.exif_container) 16384 64 K.EXIF
             Example.opaque 77 Scenario.exif_container K.EXIF_FLAG "EXIF"
             {| bytes := 20000; size := 16 |});
      [reflexivity | reflexivity | discriminate | reflexivity | cbn; lia].
  - exact (proj1 (GetMetaDataSize_present
             (Scenario.reader Scenario.huge_container) 16384 64 K.EXIF
             Example.opaque 77 Scenario.huge_container K.EXIF_FLAG "EXIF"
             {| bytes := 20000; size := 4294967301 |}
             eq_refl eq_refl ltac:(discriminate) eq_refl)).
Defined.

(** X16. [ExtractMetaData] writes nowhere but into the caller's buffer: for
    every input, every byte outside the [outSize] bytes at [outData] is
    after the call what it was before. *)
Theorem ExtractMetaData_writes_only_buffer
        (lib : Codec) (data : addr) (dataSize : Z) (outData : addr)
        (outSize : Z) (type : Z) (m : memory) (o : Z) (a : addr) :
  ~ (outData <= a < outData + outSize) ->
  mem (snd (ExtractMetaData lib data dataSize outData outSize type
                            (initial m o))) a = m a.
Proof.
  intros Ha.
  destruct (ExtractMetaData lib data dataSize outData outSize type
                            (initial m o)) as [r st'] eqn:E.
  cbn [snd]. unfold_bridge. split_run; cbn [mem];
    first [ reflexivity
          | now apply zero_bytes_outside
          | now apply copy_bytes_outside ].
Qed.

Lemma ExtractMetaData_writes_only_buffer_witness :
  mem (snd (ExtractMetaData (Scenario.reader Scenario.exif_container)
                            16384 64 1000 16 K.EXIF
                            (initial Scenario.ramp 77))) 1016 = 248.
Proof.
  apply (ExtractMetaData_writes_only_buffer
           (Scenario.reader Scenario.exif_container) 16384 64 1000 16 K.EXIF
           Scenario.ramp 77 1016).
  lia.
Defined.

(** X17. When the container opens, the kind's flag is set and the container
    holds a chunk of the kind, [ExtractMetaData] copies the first [outSize]
    bytes found at the chunk's address into the caller's buffer.  The count
    is the caller's [outSize]; the chunk's own size plays no part. *)
Theorem ExtractMetaData_present
        (lib : Codec) (data : addr) (dataSize : Z) (outData : addr)
        (outSize : Z) (type : Z) (m : memory) (o : Z) (demux : WebPDemuxer)
        (flag : Z) (fourcc : string) (c : WebPData) :
  WebPDemux lib {| bytes := data; size := dataSize |} m = Some demux ->
  kind_chunk type = Some (flag, fourcc) ->
  Z.land (format_flags demux) flag <> 0 ->
  find_chunk demux fourcc 1 = Some c ->
  outData <> nullptr ->
  bytes c <> nullptr ->
  let st' := snd (ExtractMetaData lib data dataSize outData outSize type
                                  (initial m o)) in
  (forall i, 0 <= i < outSize -> mem st' (outData + i) = m (bytes c + i))
  /\ In (Ev_memcpy_s outData outSize (bytes c) outSize) (log st')
  /\ ~ In EvInvalidParameter (log st').
Proof.
  intros Hd Hk Hf Hc Ho Hb. cbv zeta.
  apply Z.eqb_neq in Hf, Ho, Hb.
  kind_cases Hk; unfold_bridge; cbn [mem out log]; rewrite Hd;
    cbn [is_some fst snd mem out log]; rewrite ?Ek, ?Ek0, ?Ek1, Hf;
    cbn [negb]; rewrite Hc; cbn [fst snd mem out log chunk bytes app];
    rewrite Ho, Hb, Z.ltb_irrefl; cbn [orb];
    (destruct (outSize =? 0) eqn:Hz; cbn [fst snd mem out log app];
     (split; [|split; [cbn [In]; tauto | intros H; in_log]]);
     intros i Hi;
     [ apply Z.eqb_eq in Hz; lia | now apply copy_bytes_inside ]).
Qed.

Lemma ExtractMetaData_present_witness :
  mem (snd (ExtractMetaData (Scenario.reader Scenario.exif_container)
                            16384 64 1000 16 K.EXIF
                            (initial Scenario.ramp 77))) (1000 + 3)
  = Scenario.ramp (20000 + 3).
Proof.
  apply (ExtractMetaData_present
           (Scenario.reader Scenario.exif_container) 16384 64 1000 16 K.EXIF
           Scenario.ramp 77 Scenario.exif_container K.EXIF_FLAG "EXIF"
           {| bytes := 20000; size := 16 |});
    [reflexivity | reflexivity | discriminate | reflexivity
    | discriminate | discriminate | lia].
Defined.

(** X18. Size query, then extraction with the size it reported: when the
    container opens, the kind's flag is set, the chunk is found and its
    size is below 2^32, the caller's buffer receives exactly the chunk, byte
    for byte, nothing else in memory changes, and the runtime's invalid
    parameter handler is not raised. *)
Theorem size_then_extract_round_trip
        (lib : Codec) (data : addr) (dataSize : Z) (outData : addr)
        (type : Z) (m : memory) (o : Z) (demux : WebPDemuxer) (flag : Z)
        (fourcc : string) (c : WebPData) :
  WebPDemux lib {| bytes := data; size := dataSize |} m = Some demux ->
  kind_chunk type = Some (flag, fourcc) ->
  Z.land (format_flags demux) flag <> 0 ->
  find_chunk demux fourcc 1 = Some c ->
  0 <= size c < 2 ^ 32 ->
  outData <> nullptr ->
  bytes c <> nullptr ->
  let st1 := snd (GetMetaDataSize lib data dataSize type (initial m o)) in
  let st2 := snd (ExtractMetaData lib data dataSize outData (out st1) type
                                  st1) in
  out st1 = size c
  /\ (forall i, 0 <= i < size c -> mem st2 (outData + i) = m (bytes c + i))
  /\ (forall a, ~ (outData <= a < outData + size c) -> mem st2 a = m a)
  /\ ~ In EvInvalidParameter (log st2).
Proof.
  intros Hd Hk Hf Hc Hsize Ho Hb. cbv zeta.
  apply Z.eqb_neq in Hf, Ho, Hb.
  assert (Hmod : CInt.to_uint32 (size c) = size c)
    by (unfold CInt.to_uint32; now apply Z.mod_small).
  kind_cases Hk; unfold_bridge; cbn [mem out log]; rewrite !Hd;
    cbn [is_some fst snd mem out log]; rewrite ?Ek, ?Ek0, ?Ek1, !Hf;
    cbn [negb]; rewrite !Hc; cbn [fst snd mem out log chunk bytes size app];
    rewrite !Hd; cbn [is_some fst snd mem out log];
    rewrite ?Ek, ?Ek0, ?Ek1, ?Hf; cbn [negb]; rewrite ?Hc;
    cbn [fst snd mem out log chunk bytes size app];
    rewrite !Hmod, Ho, Hb, Z.ltb_irrefl; cbn [orb];
    (split; [reflexivity|]);
    (destruct (size c =? 0) eqn:Hz; cbn [fst snd mem out log app];
     (split; [|split; [|intros H; in_log]]);
     [ intros i Hi; apply Z.eqb_eq in Hz; lia
     | intros a Ha; reflexivity
     | intros i Hi; now apply copy_bytes_inside
     | intros a Ha; now apply copy_bytes_outside ]).
Qed.

Lemma size_then_extract_round_trip_witness :
  let lib := Scenario.reader Scenario.exif_container in
  let st1 := snd (GetMetaDataSize lib 16384 64 K.EXIF
                                  (initial Scenario.ramp 77)) in
  let st2 := snd (ExtractMetaData lib 16384 64 1000 (out st1) K.EXIF st1) in
  out st1 = 16 /\ mem st2 (1000 + 15) = Scenario.ramp (20000 + 15).
Proof.
  cbv zeta.
  destruct (size_then_extract_round_trip
              (Scenario.reader Scenario.exif_container) 16384 64 1000 K.EXIF
              Scenario.ramp 77 Scenario.exif_container K.EXIF_FLAG "EXIF"
              {| bytes := 20000; size := 16 |}
              eq_refl eq_refl ltac:(discriminate) eq_refl
              ltac:(cbn; lia) ltac:(discriminate) ltac:(discriminate))
    as [H1 [H2 _]].
  split; [exact H1 | apply (H2 15); cbn; lia].
Defined.

(** X19. Size query, then extraction with the size it reported, for a kind
    that is absent (container not opened, flag clear or chunk missing): the
    size is 0, the extraction changes no byte of memory and the runtime's
    invalid parameter handler is not raised. *)
Theorem size_then_extract_absent
        (lib : Codec) (data : addr) (dataSize : Z) (outData : addr)
        (type : Z) (m : memory) (o : Z) :
  metadata_absent (WebPDemux lib {| bytes := data; size := dataSize |} m)
                  type = true ->
  let st1 := snd (GetMetaDataSize lib data dataSize type (initial m o)) in
  let st2 := snd (ExtractMetaData lib data dataSize outData (out st1) type
                                  st1) in
  out st1 = 0 /\ mem st2 = m /\ ~ In EvInvalidParameter (log st2).
Proof.
  cbv zeta. unfold metadata_absent, kind_chunk. intros Habs.
  destruct (GetMetaDataSize lib data dataSize type (initial m o))
    as [u st1] eqn:E1.
  cbn [snd].
  destruct (ExtractMetaData lib data dataSize outData (out st1) type st1)
    as [v st2] eqn:E2.
  cbn [snd]. unfold_bridge. cbn [mem out log] in E1.
  destruct (WebPDemux lib {| bytes := data; size := dataSize |} m)
    as [demux|] eqn:Hd; cbn [is_some mem out log] in E1.
  - split_run; try absent_clash; cbn [fst snd mem out log] in *;
      try discriminate;
      (split; [reflexivity|split; [reflexivity|intros H; in_log]]).
  - inversion E1; subst; clear E1. cbn [mem out log] in E2. rewrite Hd in E2.
    inversion E2; subst; clear E2.
    split; [reflexivity|split; [reflexivity|intros H; in_log]].
Qed.

Lemma size_then_extract_absent_witness :
  let lib := Scenario.reader Example.bare_container in
  let st1 := snd (GetMetaDataSize lib 16384 64 K.XMP
                                  (initial Scenario.ramp 77)) in
  mem (snd (ExtractMetaData lib 16384 64 1000 (out st1) K.XMP st1))
  = Scenario.ramp.
Proof.
  cbv zeta.
  exact (proj1 (proj2 (size_then_extract_absent
                         (Scenario.reader Example.bare_container)
                         16384 64 1000 K.XMP Scenario.ramp 77 eq_refl))).
Defined.

(** X20. [GetMetaDataSize] and [ExtractMetaData] hold no demultiplexer at
    the return: the demultiplexer is deleted and the chunk iterator
    released once when the container opened and never when it did not,
    and at most one chunk is looked up. *)
Theorem metadata_readers_release_demuxer
        (lib : Codec) (data : addr) (dataSize : Z) (outData : addr)
        (outSize : Z) (type : Z) (m : memory) (o : Z) :
  let q := log (snd (GetMetaDataSize lib data dataSize type (initial m o))) in
  let x := log (snd (ExtractMetaData lib data dataSize outData outSize type
                                     (initial m o))) in
  (count is_demux_delete q = count is_demux_open q
   /\ count is_iterator_release q = count is_demux_open q
   /\ (count is_demux_open q <= 1)%nat
   /\ (count is_chunk_lookup q <= count is_demux_open q)%nat)
  /\ (count is_demux_delete x = count is_demux_open x
      /\ count is_iterator_release x = count is_demux_open x
      /\ (count is_demux_open x <= 1)%nat
      /\ (count is_chunk_lookup x <= count is_demux_open x)%nat).
Proof.
  cbv zeta. split.
  - destruct (GetMetaDataSize lib data dataSize type (initial m o))
      as [u st'] eqn:E.
    cbn [snd]. unfold_bridge. split_run; cbn; repeat split; lia.
  - destruct (ExtractMetaData lib data dataSize outData outSize type
                              (initial m o)) as [u st'] eqn:E.
    cbn [snd]. unfold_bridge. split_run; cbn; repeat split; lia.
Qed.

(** ** Settings and result codes *)

(** X21. Whatever the quality, [WebPSave] sets the method of the parameters
    and thread level 1 in the configuration.  At quality 100 the lossy
    settings of the caller are ignored: target size, filter strength,
    filter type, filter sharpness and noise shaping strength stay as the
    preset gave them. *)
Theorem configure_lossless_ignores_lossy_settings
        (config : WebPConfig) (pic : WebPPicture) (params : EncodeParams) :
  let config' := fst (configure config pic params) in
  cfg_method config' = method params
  /\ thread_level config' = 1
  /\ (SFeqb (quality params) K.float_100 = true ->
      target_size config' = target_size config
      /\ filter_strength config' = filter_strength config
      /\ filter_type config' = filter_type config
      /\ filter_sharpness config' = filter_sharpness config
      /\ sns_strength config' = sns_strength config).
Proof.
  cbv zeta.
  destruct (configure_sets_method_and_threads config pic params) as [Ht Hm].
  split; [exact Hm|]. split; [exact Ht|].
  intros Hq. unfold configure. rewrite Hq.
  destruct (preset params =? K.WEBP_PRESET_PHOTO),
           (preset params =? K.WEBP_PRESET_PICTURE),
           (preset params =? K.WEBP_PRESET_DRAWING); repeat split.
Qed.

Lemma configure_lossless_ignores_lossy_settings_witness :
  filter_strength
    (fst (configure Example.config_default Example.picture_init
                    (Example.params K.float_100 K.WEBP_PRESET_PHOTO))) = 60.
Proof.
  destruct (configure_lossless_ignores_lossy_settings
              Example.config_default Example.picture_init
              (Example.params K.float_100 K.WEBP_PRESET_PHOTO))
    as [_ [_ H]].
  exact (proj1 (proj2 (H eq_refl))).
Defined.

(** X22. The result of [WebPSave] is VP8_ENC_ERROR_NULL_PARAMETER, the
    version mismatch code, VP8_ENC_ERROR_OUT_OF_MEMORY, 0, or the error
    code with which the encoder failed in this call, that is on the
    configuration and the picture the call passed to it; no other value is
    returned. *)
Theorem WebPSave_result_codes
        (lib : Codec) (outputAllocator : option OutputBufferAllocFn)
        (bitmap : addr) (width height stride : Z) (params : EncodeParams)
        (callback : addr) (m : memory) (o : Z) :
  let run := WebPSave lib outputAllocator bitmap width height stride
                      params callback (initial m o) in
  fst run = K.VP8_ENC_ERROR_NULL_PARAMETER
  \/ fst run = K.errVersionMismatch
  \/ fst run = K.VP8_ENC_ERROR_OUT_OF_MEMORY
  \/ fst run = 0
  \/ (In (EvWebPEncode false) (log (snd run))
      /\ exists config pic,
           WebPConfigPreset lib (preset params) (quality params) = Some config
           /\ WebPPictureInit lib = Some pic
           /\ WebPEncode lib (fst (configure config pic params))
                 (picture_at_encode config pic params width height callback)
                 m
              = EncodeFail (fst run)).
Proof.
  cbv zeta. destruct outputAllocator as [alloc|]; [|left; reflexivity].
  destruct (WebPSave lib (Some alloc) bitmap width height stride params
                     callback (initial m o)) as [r st'] eqn:E.
  cbn [fst snd]. unfold_bridge. split_run;
    first [ right; left; reflexivity
          | right; right; left; reflexivity
          | right; right; right; left; reflexivity
          | right; right; right; right;
            split; [cbn [log app In]; tauto|];
            eexists; eexists;
            split; [reflexivity|]; split; [reflexivity|];
            unfold picture_at_encode, picture_at_import;
            match goal with
            | H : configure _ _ _ = (_, _) |- _ => rewrite H
            end;
            cbn [fst snd];
            match goal with
            | H : negb (callback =? nullptr) = _ |- _ => rewrite H
            end;
            eassumption ].
Qed.

(** X23. The result of [SetMetaData] is WEBP_MUX_INVALID_ARGUMENT (null
    allocator), WEBP_MUX_MEMORY_ERROR (no multiplexer or no buffer), or the
    code returned by one of its calls to [WebPMuxSetImage],
    [WebPMuxSetChunk] or [WebPMuxAssemble]. *)
Theorem SetMetaData_result_codes
        (lib : Codec) (image : addr) (imageSize : Z)
        (outputAllocator : option OutputBufferAllocFn)
        (metaData : MetaDataParams) (m : memory) (o : Z) :
  let run := SetMetaData lib image imageSize outputAllocator metaData
                         (initial m o) in
  fst run = K.WEBP_MUX_INVALID_ARGUMENT
  \/ fst run = K.WEBP_MUX_MEMORY_ERROR
  \/ In (EvWebPMuxSetImage (fst run)) (log (snd run))
  \/ (exists fourcc, In (EvWebPMuxSetChunk fourcc (fst run)) (log (snd run)))
  \/ In (EvWebPMuxAssemble (fst run)) (log (snd run)).
Proof.
  cbv zeta. destruct outputAllocator as [alloc|]; [|left; reflexivity].
  destruct (SetMetaData lib image imageSize (Some alloc) metaData
                        (initial m o)) as [r st'] eqn:E.
  cbn [fst snd]. unfold_bridge. split_run; cbn [log app];
    first [ right; left; reflexivity
          | right; right; left; cbn [In]; tauto
          | right; right; right; left; eexists; cbn [In]; tauto
          | right; right; right; right; cbn [In]; tauto ].
Qed.

(** X24. When the multiplexer cannot be created, [SetMetaData] returns
    WEBP_MUX_MEMORY_ERROR at once: no image or chunk is set, the allocator
    is not called, and memory and the out-parameter stay as they were. *)
Theorem SetMetaData_without_mux
        (lib : Codec) (image : addr) (imageSize : Z)
        (alloc : OutputBufferAllocFn) (metaData : MetaDataParams)
        (m : memory) (o : Z) :
  WebPMuxNew lib = nullptr ->
  SetMetaData lib image imageSize (Some alloc) metaData (initial m o)
  = (K.WEBP_MUX_MEMORY_ERROR,
     {| mem := m; out := o; log := [EvWebPMuxNew nullptr] |}).
Proof.
  intros H. unfold_bridge. cbn [mem out log app]. rewrite H. reflexivity.
Qed.

Lemma SetMetaData_without_mux_witness :
  fst (SetMetaData Scenario.version_skew 16384 64 (Some Example.allocator_ok)
                   Scenario.all_metadata (initial Example.opaque 77))
  = K.WEBP_MUX_MEMORY_ERROR.
Proof.
  rewrite (SetMetaData_without_mux
             Scenario.version_skew 16384 64 Example.allocator_ok
             Scenario.all_metadata Example.opaque 77 eq_refl).
  reflexivity.
Defined.
